(** * InstagramAnalytics: the list-materialisation engine of [ig_access.py]

    A shallow embedding of [IGAccess] (src/ig_access.py) and the properties
    of its parser, its polling loops, its post walker and its persistence
    step.

    Python values are modelled as follows.
    - [str] is [string]; [list] is [list]; a [dict] keyed by strings is a
      [gmap string _].
    - [int] is [Z] (or [nat] for a [len]).
    - The only [float]s the code compares are the multiples of [0.5] that
      [update_delay] runs through; they are exact in binary floating point
      and are modelled as rationals [Q].  The quotient [avg_likes] is a
      binary64 float: the division of the Standard Library's [SpecFloat]
      at precision 53 and maximal exponent 1024.
    - The Selenium driver is an oracle: a function from the number of
      observations made so far to what the page shows at that moment. *)

From Stdlib Require Import Ascii String DecimalString DecimalPos DecimalZ.
From Stdlib Require Import QArith SpecFloat.
From stdpp Require Import gmap strings list fin_maps.

Local Open Scope string_scope.
Local Open Scope Z_scope.

(** ** Strings *)

Module PyStr.

Definition nl : ascii := "010"%char.

(** [s.split(sep)] for a one-character separator. *)
Fixpoint split (sep : ascii) (s : string) : list string :=
  match s with
  | EmptyString => [EmptyString]
  | String c s' =>
      if Ascii.eqb c sep then EmptyString :: split sep s'
      else match split sep s' with
           | [] => [String c EmptyString]
           | w :: ws => String c w :: ws
           end
  end.

(** [sep.join(parts)] for a one-character separator. *)
Fixpoint join (sep : ascii) (parts : list string) : string :=
  match parts with
  | [] => EmptyString
  | [w] => w
  | w :: ws => w +:+ String sep (join sep ws)
  end.

(** [s.startswith(p)] *)
Definition startswith (p s : string) : bool := String.prefix p s.

(** The character [sep] does not occur in [s]. *)
Fixpoint free_of (sep : ascii) (s : string) : Prop :=
  match s with
  | EmptyString => True
  | String c s' => c ≠ sep ∧ free_of sep s'
  end.

(** ['%d' % n] *)
Definition dec (n : Z) : string :=
  NilZero.string_of_int (Z.to_int n).

(** The integer that a decimal numeral denotes. *)
Definition read_dec (s : string) : option Z :=
  Z.of_int <$> NilZero.int_of_string s.

End PyStr.

(** ** The text chunk parser: [_clean_list] *)

Module Parser.
Import PyStr.

Definition action_labels : list string := ["Following"; "Follow"].

(** One turn of [for i in range(len(raw_list))].  [raw_list[i]] and
    [raw_list[i-1]] are in range for [1 <= i < len(raw_list)];
    [raw_list[i+1]] raises [IndexError] on the last line, which the code
    catches and ignores. *)
Definition clean_step (raw_list : list string)
    (return_list : list string) (i : nat) : list string :=
  match raw_list !! i with
  | None => return_list
  | Some line =>
      if (i =? 0)%nat
         || match raw_list !! (i - 1)%nat with
            | Some prev => bool_decide (prev ∈ action_labels)
            | None => false
            end
      then
        let name :=
          match raw_list !! (i + 1)%nat with
          | Some next =>
              if String.eqb next "Verified" then line +:+ " (Verified)"
              else line
          | None => line
          end in
        (return_list ++ [name])%list
      else return_list
  end.

Definition clean_list (raw_string : string) : list string :=
  let raw_list := split nl raw_string in
  foldl (clean_step raw_list) [] (seq 0 (length raw_list)).

(** *** The parser as the specification describes it *)

Record entity := Entity { name : string; verified : bool }.

(** How the code writes a record: the name, tagged when verified. *)
Definition render (e : entity) : string :=
  if verified e then name e +:+ " (Verified)" else name e.

(** Line [i] is a name line: it is the first line, or the line before
    it is exactly one of the two action-button labels. *)
Definition name_line (lines : list string) (i : nat) : Prop :=
  i = 0%nat ∨ lines !! (i - 1)%nat = Some "Follow"
           ∨ lines !! (i - 1)%nat = Some "Following".

#[global] Instance name_line_dec lines i : Decision (name_line lines i).
Proof. unfold name_line. apply _. Defined.

Definition name_positions (lines : list string) : list nat :=
  filter (name_line lines) (seq 0 (length lines)).

(** The record of the name line [i]: verified iff line [i+1] exists and
    is the marker. *)
Definition entity_at (lines : list string) (i : nat) : entity :=
  {| name := default "" (lines !! i);
     verified := bool_decide (lines !! (i + 1)%nat = Some "Verified") |}.

Definition entities (lines : list string) : list entity :=
  entity_at lines <$> name_positions lines.

End Parser.

(** ** Exceptions, the driver and the effect monad *)

Module Effects.

Inductive exn :=
| IGAccessException (msg : string)
| NoSuchElementException
| IndexError
| KeyError
| TypeError
| ZeroDivisionError
| OverflowError
| UnicodeDecodeError.

(** What the page shows at one moment, restricted to what [IGAccess]
    looks at.  An absent element is [None] (or [false]): looking it up
    raises [NoSuchElementException].  Count labels are taken as the
    integers [int(...)] reads from them. *)
Record dom := Dom {
  followers_title : option Z;   (* header/section/ul/li[2]/a/span, title *)
  following_text : option Z;    (* header/section/ul/li[3]/a/span, text *)
  users_dialog : bool;          (* the follow-list dialog *)
  panel_text : option string;   (* text of the element of class _b9n99 *)
  like_label : option Z;        (* the likes link of the open post *)
  likes_dialog : bool;          (* the likers dialog of the open post *)
  next_arrow : bool;            (* coreSpriteRightPaginationArrow *)
  posts_label : Z;              (* span._fd86t: the number of posts *)
  page_links : list string;     (* href of every <a href> of the article *)
  comment_items : list string;  (* text of every li._3apjk *)
  post_img : string → bool      (* some <a> whose href contains the id *)
}.

(** The driver: [page t] is the page at the [t]-th observation, [seen]
    the number of observations made so far.  Commands that return
    nothing ([get], [click], [execute_script], [time.sleep]) act on the
    page only; their effect is part of [page]. *)
Record browser := Browser { page : nat → dom; seen : nat }.

Inductive outcome (A : Type) :=
| Return (a : A) (b : browser)
| Raise (e : exn) (b : browser)
| OutOfFuel.
Arguments Return {A} a b.
Arguments Raise {A} e b.
Arguments OutOfFuel {A}.

Definition M (A : Type) : Type := browser → outcome A.

Definition ret {A} (a : A) : M A := λ b, Return a b.
Definition raise {A} (e : exn) : M A := λ b, Raise e b.
Definition out_of_fuel {A} : M A := λ _, OutOfFuel.

Definition bind {A B} (m : M A) (k : A → M B) : M B :=
  λ b, match m b with
       | Return a b' => k a b'
       | Raise e b' => Raise e b'
       | OutOfFuel => OutOfFuel
       end.

#[global] Instance M_ret : MRet M := @ret.
#[global] Instance M_bind : MBind M := λ A B k m, bind m k.

(** [try: m  except e: h] for the one exception [handles] accepts. *)
Definition try_except {A} (m : M A) (handles : exn → bool) (h : M A) : M A :=
  λ b, match m b with
       | Raise e b' => if handles e then h b' else Raise e b'
       | r => r
       end.

Definition is_NoSuchElement (e : exn) : bool :=
  match e with NoSuchElementException => true | _ => false end.
Definition is_IndexError (e : exn) : bool :=
  match e with IndexError => true | _ => false end.

(** One observation of the page. *)
Definition observe {A} (f : dom → A) : M A :=
  λ b, Return (f (page b (seen b))) (Browser (page b) (S (seen b))).

(** [driver.find_element_by_...]: the element or
    [NoSuchElementException]. *)
Definition find_element {A} (f : dom → option A) : M A :=
  o ← observe f;
  match o with
  | Some a => ret a
  | None => raise NoSuchElementException
  end.

Definition present (f : dom → bool) : dom → option unit :=
  λ d, if f d then Some () else None.

(** [l[i]] *)
Definition index {A} (l : list A) (i : nat) : M A :=
  match l !! i with
  | Some a => ret a
  | None => raise IndexError
  end.

(** [for x in xs: acc = body(acc, x)] *)
Fixpoint for_each {I S} (xs : list I) (body : S → I → M S) (acc : S) : M S :=
  match xs with
  | [] => ret acc
  | x :: xs' => acc' ← body acc x; for_each xs' body acc'
  end.

(** The driver after one more observation, and after [n] more. *)
Definition tick (b : browser) : browser := Browser (page b) (S (seen b)).

Fixpoint ticks (n : nat) (b : browser) : browser :=
  match n with O => b | S n' => ticks n' (tick b) end.

(** The result of a run, without the driver. *)
Definition result {A} (r : outcome A) : option (A + exn) :=
  match r with
  | Return a _ => Some (inl a)
  | Raise e _ => Some (inr e)
  | OutOfFuel => None
  end.

End Effects.

(** ** The materialiser: [_get_list_of_users] and [_get_likes_from_post] *)

Module Materializer.
Import PyStr Parser Effects.

Definition count (l : list string) : Z := Z.of_nat (length l).

(** The progress bar of [_get_likes_from_post] prints
    [i / num_of_posts + ...]; only the division can fail. *)
Definition progress (show_progress : bool) (num_of_posts : Z) : M unit :=
  if show_progress && (num_of_posts =? 0) then raise ZeroDivisionError
  else ret ().

(** [while len(list_of_users) < num_users] of [_get_list_of_users].
    Its progress bar divides by [num_users], which is positive inside
    the loop. *)
Fixpoint users_loop (fuel : nat) (num_users : Z)
    (list_of_users : list string) : M (list string) :=
  if count list_of_users <? num_users then
    match fuel with
    | O => out_of_fuel
    | S fuel' =>
        text ← find_element panel_text;
        let list_of_users := clean_list text in
        users_loop fuel' num_users list_of_users
    end
  else ret list_of_users.

Definition _get_list_of_users (fuel : nat) (num_users : Z) : M (list string) :=
  _ ← find_element (present users_dialog);
  text ← find_element panel_text;
  users_loop fuel num_users (clean_list text).

Definition timeout_msg (last_count num_of_likes : Z) : string :=
  "TIMEOUT ERROR: Page hasn't refreshed for 5 seconds, loop stopped at getting user "
  +:+ dec last_count +:+ " of " +:+ dec num_of_likes
  +:+ ", try again when you have better internet speeds".

(** [while len(list_of_users) < num_of_likes] of
    [_get_likes_from_post]. *)
Fixpoint likes_loop (fuel : nat) (show_progress : bool) (num_of_posts : Z)
    (num_of_likes : Z) (list_of_users : list string) (update_delay : Q)
    : M (list string) :=
  if count list_of_users <? num_of_likes then
    match fuel with
    | O => out_of_fuel
    | S fuel' =>
        let last_count := count list_of_users in
        text ← find_element panel_text;
        let list_of_users := clean_list text in
        _ ← progress show_progress num_of_posts;
        let update_delay :=
          if count list_of_users =? last_count
          then (update_delay + (1 # 2))%Q else 0%Q in
        if Qeq_bool update_delay 5 then
          if negb (count list_of_users + 1 =? num_of_likes) then
            raise (IGAccessException (timeout_msg last_count num_of_likes))
          else ret list_of_users
        else
          likes_loop fuel' show_progress num_of_posts num_of_likes
            list_of_users update_delay
    end
  else ret list_of_users.

Definition _get_likes_from_post (fuel : nat) (show_progress : bool)
    (i : nat) (num_of_posts : Z) : M (list string) :=
  num_of_likes ← find_element like_label;
  _ ← find_element (present likes_dialog);
  text ← find_element panel_text;
  likes_loop fuel show_progress num_of_posts num_of_likes (clean_list text) 0%Q.

(** Between the drivers [b] and [b'] a snapshot was read, and [l] is
    the parse of the one read last. *)
Definition latest_parse (b : browser) (l : list string) (b' : browser) : Prop :=
  page b' = page b ∧ (seen b < seen b')%nat
  ∧ ∃ text, panel_text (page b (seen b' - 1)) = Some text
            ∧ l = clean_list text.

End Materializer.

(** ** Posts, profiles and the [IGAccess] object *)

Module Data.

(** One entry of [data_per_post]: a dict that starts as [{'id': ...}]
    and gains ['comments'], ['likes'] and ['liked_by']. *)
Record post := Post {
  id : string;
  comments : option string;
  likes : option Z;
  liked_by : option (list string)
}.

Definition new_post (new_id : string) : post := Post new_id None None None.

Definition set_comments (c : string) (p : post) : post :=
  Post (id p) (Some c) (likes p) (liked_by p).

Definition set_likes (users_who_liked : list string) (p : post) : post :=
  Post (id p) (comments p) (Some (Z.of_nat (length users_who_liked)))
       (Some users_who_liked).

(** The values stored under the keys of [self.data[username]]. *)
Inductive value :=
| VInt (n : Z)
| VNum (x : spec_float)
| VNames (l : list string)
| VPosts (l : list post).

Record igaccess := IGAccess {
  show_progress : bool;
  data : gmap string (gmap string value)
}.

(** [self.data[username]], created empty on [KeyError]. *)
Definition profile_of (self : igaccess) (username : string) : gmap string value :=
  default ∅ (data self !! username).

Definition set_profile (self : igaccess) (username : string)
    (p : gmap string value) : igaccess :=
  IGAccess (show_progress self) (<[username := p]> (data self)).

End Data.

(** ** Follow lists: [collect_follow_data] *)

Module Follow.
Import PyStr Parser Effects Materializer Data.

(** The [try] block reads the count and clicks the link; a missing
    link means no followers. *)
Definition _get_followers (fuel : nat) : M (list string) :=
  link ← try_except (n ← find_element followers_title; ret (Some n))
           is_NoSuchElement (ret None);
  match link with
  | None => ret []
  | Some num_of_followers => _get_list_of_users fuel num_of_followers
  end.

Definition _get_following (fuel : nat) : M (list string) :=
  link ← try_except (n ← find_element following_text; ret (Some n))
           is_NoSuchElement (ret None);
  match link with
  | None => ret []
  | Some num_following => _get_list_of_users fuel num_following
  end.

Definition collect_follow_data (fuel : nat) (self : igaccess)
    (username : string) : M igaccess :=
  followers ← _get_followers fuel;
  following ← _get_following fuel;
  let p := profile_of self username in
  let p := <["num_followers" := VInt (count followers)]> p in
  let p := <["num_following" := VInt (count following)]> p in
  let p := <["followers" := VNames followers]> p in
  let p := <["following" := VNames following]> p in
  ret (set_profile self username p).

End Follow.

(** ** The post walker: [collect_posts_data] and [_get_like_data] *)

Module Walker.
Import PyStr Parser Effects Materializer Data.

(** [link['href'].split('/')[2]] of a link that starts with [/p/]. *)
Definition href_post_id (href : string) : option string :=
  if startswith "/p/" href then split "/" href !! 2%nat else None.

(** First scan of the page: every post link becomes an entry. *)
Definition initial_posts (links : list string) : list post :=
  foldl (λ (data_per_post : list post) href,
           match href_post_id href with
           | Some i => (data_per_post ++ [new_post i])%list
           | None => data_per_post
           end) [] links.

(** One link of the refreshed page: [new_id] is added iff it is not
    already in [data_per_post]. *)
Definition refresh_step (data_per_post : list post) (href : string) : list post :=
  match href_post_id href with
  | Some new_id =>
      if bool_decide (new_id ∉ (id <$> data_per_post))
      then (data_per_post ++ [new_post new_id])%list
      else data_per_post
  | None => data_per_post
  end.

Definition refresh (data_per_post : list post) (links : list string) : list post :=
  foldl refresh_step data_per_post links.

(** The post ids a page shows, in page order. *)
Definition surfaced (links : list string) : list string :=
  omap href_post_id links.

(** One turn of [for i in range(num_of_posts)]. *)
Definition scan_step (data_per_post : list post) (i : nat) : M (list post) :=
  p ← index data_per_post i;
  _ ← find_element (present (λ d, post_img d (id p)));
  items ← observe comment_items;
  item ← index items 0;
  let comments := hd "" (split "c" item) in
  let data_per_post := alter (set_comments comments) i data_per_post in
  if (Z.of_nat i + 1) mod 12 =? 0 then
    links ← observe page_links;
    ret (refresh data_per_post links)
  else ret data_per_post.

Definition scan_posts (num_of_posts : Z) (data_per_post : list post)
    : M (list post) :=
  for_each (seq 0 (Z.to_nat num_of_posts)) scan_step data_per_post.

(** One turn of [for i in range(len(data_per_post))] of
    [_get_like_data].  [continue] is the last statement of the body. *)
Definition like_step (fuel : nat) (show_progress : bool) (num_of_posts : Z)
    (data_per_post : list post) (i : nat) : M (list post) :=
  users_who_liked ← _get_likes_from_post fuel show_progress i num_of_posts;
  let data_per_post := alter (set_likes users_who_liked) i data_per_post in
  _ ← try_except (find_element (present next_arrow))
        is_NoSuchElement (ret ());
  ret data_per_post.

Definition _get_like_data (fuel : nat) (show_progress : bool)
    (num_of_posts : Z) (data_per_post : list post) : M (list post) :=
  _ ← try_except
        (p ← index data_per_post 0;
         find_element (present (λ d, post_img d (id p))))
        is_IndexError (ret ());
  for_each (seq 0 (length data_per_post))
    (like_step fuel show_progress num_of_posts) data_per_post.

(** [data['likes']] *)
Definition likes_of (p : post) : M Z :=
  match likes p with
  | Some n => ret n
  | None => raise KeyError
  end.

(** [[data['likes'] for data in data_per_post]] *)
Definition likes_list (data_per_post : list post) : M (list Z) :=
  for_each data_per_post
    (λ (acc : list Z) data, n ← likes_of data; ret (acc ++ [n])%list) [].

(** [sum(xs)] *)
Definition py_sum (xs : list Z) : Z := foldl Z.add 0 xs.

(** An [int] as the dividend or divisor of a float division. *)
Definition to_float (z : Z) : spec_float :=
  match z with
  | Z0 => S754_zero false
  | Zpos p => S754_finite false p 0
  | Zneg p => S754_finite true p 0
  end.

(** [a / b] on two [int]s: the binary64 float nearest to the quotient
    (ties to even); [ZeroDivisionError] for a zero divisor and
    [OverflowError] for a quotient too large for a float. *)
Definition py_truediv (a b : Z) : spec_float + exn :=
  if b =? 0 then inr ZeroDivisionError
  else match SFdiv 53 1024 (to_float a) (to_float b) with
       | S754_infinity _ => inr OverflowError
       | x => inl x
       end.

(** [avg_likes]: the int [0], or the quotient when there are posts. *)
Definition average (total_likes : Z) (data_per_post : list post)
    : value + exn :=
  if negb (length data_per_post =? 0)%nat
  then match py_truediv total_likes (Z.of_nat (length data_per_post)) with
       | inl x => inl (VNum x)
       | inr e => inr e
       end
  else inl (VInt 0).

(** [collect_posts_data] up to and including the call of
    [_get_like_data]: the scan of the post ids, then the like walk. *)
Definition walk_posts (fuel : nat) (show_progress : bool) : M (list post) :=
  '(num_of_posts, links) ← observe (λ d, (posts_label d, page_links d));
  let data_per_post := initial_posts links in
  data_per_post ← scan_posts num_of_posts data_per_post;
  _get_like_data fuel show_progress num_of_posts data_per_post.

Definition collect_posts_data (fuel : nat) (self : igaccess)
    (username : string) : M igaccess :=
  data_per_post ← walk_posts fuel (show_progress self);
  xs ← likes_list data_per_post;
  let total_likes := py_sum xs in
  avg_likes ← match average total_likes data_per_post with
              | inl v => ret v
              | inr e => raise e
              end;
  let p := profile_of self username in
  let p := <["data_per_post" := VPosts data_per_post]> p in
  let p := <["total_likes" := VInt total_likes]> p in
  let p := <["avg_likes" := avg_likes]> p in
  ret (set_profile self username p).

End Walker.

(** ** Persistence: [output_data] *)

Module Persist.
Import Effects Data.

Section Json.
(** [J] is the type of JSON values and [encode] what [json.dump]
    writes for one profile. *)
Context {J : Type} (encode : gmap string value → J).

(** What [json.load] makes of a file: an object, or some other JSON
    value (a list, a number, ...). *)
Inductive json :=
| JObject (m : gmap string J)
| JOther.

(** The file [analytic_data.json]: absent; bytes that are no text
    ([UnicodeDecodeError] when read); text that is not JSON, such as the
    empty text ([JSONDecodeError]); or JSON. *)
Inductive file :=
| Missing
| Unreadable
| Undecodable
| Decoded (j : json).

(** [for user in self.data: data[user] = self.data[user]] *)
Definition update_all (self : igaccess) (m : gmap string J) : gmap string J :=
  map_fold (λ user p m, <[user := encode p]> m) m (data self).

(** Only [JSONDecodeError] is caught while the file is read: bytes
    that are no text raise [UnicodeDecodeError] and the file stays as it
    is.  The file is opened for writing, and so emptied, before the loop
    runs; an item assignment on a value that is no object raises
    [TypeError] and leaves it empty. *)
Definition output_data (self : igaccess) (f : file) : option exn * file :=
  match f with
  | Unreadable => (Some UnicodeDecodeError, Unreadable)
  | _ =>
      let loaded :=
        match f with
        | Decoded j => j
        | _ => JObject ∅
        end in
      match loaded with
      | JObject m => (None, Decoded (JObject (update_all self m)))
      | JOther =>
          if decide (data self = ∅) then (None, Decoded JOther)
          else (Some TypeError, Undecodable)
      end
  end.
End Json.

End Persist.

(** ** Pages used as concrete runs *)

Module Fixtures.
Import PyStr Parser Effects Data.

(** A page that shows nothing. *)
Definition blank : dom :=
  Dom None None false None None false false 0 [] [] (λ _, false).

(** A follow-list (and likers) dialog whose panel shows [text], under
    count labels that all read [label]. *)
Definition showing (label : Z) (text : string) : dom :=
  Dom (Some label) (Some label) true (Some text) (Some label) true false
      0 [] [] (λ _, true).

(** The panel never renders more than its first entry. *)
Definition frozen : browser := Browser (λ _, showing 3 "A") 0.

(** Four of five likers rendered, for ever. *)
Definition four_of_five : browser :=
  Browser (λ _, showing 5 (join nl ["A"; "Follow"; "B"; "Follow"; "C"; "Follow"; "D"])) 0.

(** A panel that first shows [A], then [B] twice. *)
Definition repeated : browser :=
  Browser (λ t, if (t <? 2)%nat then showing 2 "A"
                else showing 2 (join nl ["B"; "Follow"; "B"])) 0.

(** Three followers rendered under a label that reads two. *)
Definition three_under_two : browser :=
  Browser (λ _, showing 2 (join nl ["A"; "Follow"; "B"; "Follow"; "C"])) 0.

(** The dialog of a post with one liker and no next arrow. *)
Definition last_post : browser := Browser (λ _, showing 1 "u1") 0.

Definition hrefs (ids : list string) : list string :=
  (λ i, "/p/" +:+ i +:+ "/") <$> ids.

Definition thirteen_ids : list string :=
  ["p01"; "p02"; "p03"; "p04"; "p05"; "p06"; "p07"; "p08"; "p09"; "p10";
   "p11"; "p12"; "p13"].

Definition thirteen : list post := new_post <$> thirteen_ids.

(** A profile page: every post has an image and [3 comments]; scrolled
    down, it lists the same thirteen posts and two more. *)
Definition scrolled : browser :=
  Browser (λ _, Dom None None false None None false false 15
                  ("/explore/" :: hrefs (thirteen_ids ++ ["p14"; "p15"; "p14"]))
                  ["3 comments"] (λ _, true)) 0.

(** A profile of two posts, each with one liker. *)
Definition two_posts : browser :=
  Browser (λ _, Dom None None false (Some "u1") (Some 1) true false 2
                  (hrefs ["a"; "b"]) ["3 comments"] (λ _, true)) 0.

(** A profile without posts. *)
Definition no_posts : browser := Browser (λ _, blank) 0.

Definition fresh : igaccess := IGAccess false ∅.

(** One collected profile, and a file that already holds two. *)
Definition collected : igaccess :=
  IGAccess false {[ "ann" := {[ "num_followers" := VInt 3 ]} ]}.

Definition stored : gmap string (gmap string value) :=
  {[ "ann" := {[ "num_followers" := VInt 1 ]};
     "bob" := {[ "num_followers" := VInt 7 ]} ]}.

End Fixtures.

(** ** The follow analysis: [collect_follow_diff] *)

Module Diff.
Import PyStr Effects Data.

(** [needle in s] for two strings. *)
Fixpoint contains (needle s : string) : bool :=
  String.prefix needle s
  || match s with
     | EmptyString => false
     | String _ s' => contains needle s'
     end.

#[global] Instance post_eq_dec : EqDecision post.
Proof. solve_decision. Defined.

(** [[user for user in a if user not in b]].  A number is not iterable;
    [in] on a number raises as soon as it is evaluated, that is when [a]
    has an element; a name never equals a post. *)
Definition not_in (a b : value) : value + exn :=
  match a with
  | VInt _ | VNum _ => inr TypeError
  | VNames [] => inl (VNames [])
  | VPosts [] => inl (VPosts [])
  | VNames la =>
      match b with
      | VNames lb => inl (VNames (filter (λ user, user ∉ lb) la))
      | VPosts _ => inl (VNames la)
      | VInt _ | VNum _ => inr TypeError
      end
  | VPosts la =>
      match b with
      | VPosts lb => inl (VPosts (filter (λ user, user ∉ lb) la))
      | VNames _ => inl (VPosts la)
      | VInt _ | VNum _ => inr TypeError
      end
  end.

(** [[user for user in a if '(Verified)' in user]].  On a post, [in]
    looks among its keys, none of which is ['(Verified)']. *)
Definition verified_in (a : value) : value + exn :=
  match a with
  | VInt _ | VNum _ => inr TypeError
  | VNames la => inl (VNames (filter (λ user, contains "(Verified)" user = true) la))
  | VPosts _ => inl (VPosts [])
  end.

(** The body of [for username in self.data], on one profile. *)
Definition follow_diff (p : gmap string value) : gmap string value + exn :=
  match p !! "followers" with
  | None => inr KeyError
  | Some followers =>
      match p !! "following" with
      | None => inr KeyError
      | Some following =>
          match not_in following followers, not_in followers following,
                verified_in following, verified_in followers with
          | inl not_followed_back, inl not_following_back,
            inl following_verified, inl followed_by_verified =>
              let p := <["not_followed_back" := not_followed_back]> p in
              let p := <["not_following_back" := not_following_back]> p in
              let p := <["following_verified" := following_verified]> p in
              let p := <["followed_by_verified" := followed_by_verified]> p in
              inl p
          | _, _, _, _ => inr TypeError
          end
      end
  end.

(** One turn of the loop on the whole of [self.data]. *)
Definition diff_step (username : string) (p : gmap string value)
    (acc : gmap string (gmap string value) + exn)
    : gmap string (gmap string value) + exn :=
  match acc with
  | inr e => inr e
  | inl m =>
      match follow_diff p with
      | inr e => inr e
      | inl p' => inl (<[username := p']> m)
      end
  end.

(** [collect_follow_diff].  The profiles are visited in the order of the
    map, not in Python's insertion order: when two profiles fail with
    different exceptions, the one reported may differ. *)
Definition collect_follow_diff (self : igaccess) : igaccess + exn :=
  match map_fold diff_step (inl (data self)) (data self) with
  | inr e => inr e
  | inl m => inl (IGAccess (show_progress self) m)
  end.

(** The profile that the analysis of [followers] and [following] gives. *)
Definition analysed (followers following : list string)
    (p : gmap string value) : gmap string value :=
  <["followed_by_verified" :=
      VNames (filter (λ user, contains "(Verified)" user = true) followers)]>
    (<["following_verified" :=
         VNames (filter (λ user, contains "(Verified)" user = true) following)]>
       (<["not_following_back" :=
            VNames (filter (λ user, user ∉ following) followers)]>
          (<["not_followed_back" :=
               VNames (filter (λ user, user ∉ followers) following)]> p))).

(** What the keys read by the analysis hold is a list of names. *)
Definition names_only (p : gmap string value) : Prop :=
  ∀ key v, key = "followers" ∨ key = "following" →
    p !! key = Some v → ∃ l, v = VNames l.

End Diff.

(** ** Logging in: [login] *)

Module Login.
Import Effects.

(** What the login page shows at one moment. *)
Record login_dom := LoginDom {
  username_field : bool;    (* the input named username *)
  password_field : bool;    (* the input named password *)
  error_alert : bool;       (* the element of id slfErrorAlert *)
  nav_profile : bool        (* coreSpriteDesktopNavProfile *)
}.

(** The page at each observation, and the number of observations made. *)
Record session := Session { shows : nat → login_dom; looked : nat }.

Definition look (s : session) : session := Session (shows s) (S (looked s)).

Inductive login_outcome :=
| LoggedIn (s : session)
| Failed (e : exn) (s : session)
| StillWaiting.

Definition incorrect_password : string :=
  "Incorrect password, double-check the username and password you provided".

(** [while not self.logged_in]: each turn looks for the error alert and,
    when there is none, for the profile icon. *)
Fixpoint login_loop (fuel : nat) (s : session) : login_outcome :=
  match fuel with
  | O => StillWaiting
  | S fuel' =>
      if error_alert (shows s (looked s))
      then Failed (IGAccessException incorrect_password) (look s)
      else if nav_profile (shows s (looked (look s)))
           then LoggedIn (look (look s))
           else login_loop fuel' (look (look s))
  end.

(** [login], for an object whose [logged_in] is the given flag. *)
Definition login (fuel : nat) (logged_in : bool) (s : session) : login_outcome :=
  if username_field (shows s (looked s)) then
    if password_field (shows s (looked (look s))) then
      if logged_in then LoggedIn (look (look s))
      else login_loop fuel (look (look s))
    else Failed NoSuchElementException (look (look s))
  else Failed NoSuchElementException (look s).

End Login.

(** ** Synthetic panels *)

Module Blob.
Import PyStr Parser.

(** The parser as one pass over the lines that remembers the line
    before and looks at the line after. *)
Fixpoint parse_from (prev : option string) (lines : list string) : list string :=
  match lines with
  | [] => []
  | line :: rest =>
      let here :=
        match prev with
        | None => true
        | Some p => bool_decide (p ∈ action_labels)
        end in
      (if here
       then [if bool_decide (head rest = Some "Verified")
             then line +:+ " (Verified)" else line]
       else []) ++ parse_from (Some line) rest
  end.

(** One row of a follow list: the entity and the label of its button. *)
Record row := Row { who : entity; button : string }.

Definition row_lines (r : row) : list string :=
  name (who r) :: (if verified (who r) then ["Verified"] else []) ++ [button r].

Definition blob_lines (rows : list row) : list string :=
  rows ≫= row_lines.

(** The text of a panel that shows [rows]. *)
Definition blob (rows : list row) : string := join nl (blob_lines rows).

Definition plain_row (r : row) : Prop :=
  free_of nl (name (who r))
  ∧ (name (who r) ∉ action_labels)
  ∧ button r ∈ action_labels.

End Blob.

(** ** More pages *)

Module MoreFixtures.
Import PyStr Parser Effects Data Login Blob Fixtures.

(** A likers panel that gains one entry at every poll. *)
Fixpoint grown (n : nat) : list string :=
  match n with
  | O => ["u"]
  | S n' => grown n' ++ ["Follow"; "u"]
  end.

Definition growing : browser :=
  Browser (λ t, Dom None None false (Some (join nl (grown t))) (Some 3) true
                  false 1 [] [] (λ _, true)) 0.

(** A likers panel that shows two entries and one entry in turn. *)
Definition flickering : browser :=
  Browser (λ t, Dom None None false
                  (Some (if Nat.even t then "u" else join nl ["u"; "Follow"; "v"]))
                  (Some 5) true false 1 [] [] (λ _, true)) 0.

(** A login page where the profile icon shows from the fifth look on. *)
Definition slow_login : session :=
  Session (λ t, LoginDom true true false (4 <=? t)%nat) 0.

(** A login page that shows the error alert from the fifth look on. *)
Definition wrong_password : session :=
  Session (λ t, LoginDom true true (4 <=? t)%nat false) 0.

(** A profile of three posts: the first has two likers, the other two
    one liker each. *)
Definition four_likes : browser :=
  Browser (λ t, Dom None None false
                  (Some (if (t <? 12)%nat then join nl ["u1"; "Follow"; "u2"]
                         else "u1"))
                  (Some (if (t <? 12)%nat then 2 else 1)) true false 3
                  (hrefs ["a"; "b"; "c"]) ["3 comments"] (λ _, true)) 0.

(** A profile with its two follow lists, and an object that holds it. *)
Definition ann_profile : gmap string value :=
  {[ "followers" := VNames ["bob"; "cat (Verified)"];
     "following" := VNames ["cat (Verified)"; "dan"] ]}.

Definition ann_lists : igaccess := IGAccess false {[ "ann" := ann_profile ]}.

(** An object that holds only the post data of a user. *)
Definition posts_only : igaccess :=
  IGAccess false
    {[ "user" := <["avg_likes" := VInt 0]>
                   (<["total_likes" := VInt 0]>
                      (<["data_per_post" := VPosts []]> ∅)) ]}.

End MoreFixtures.

(** * Properties *)

(** ** The parser *)

Module ParserFacts.
Import PyStr Parser.

Lemma split_nonempty sep s : split sep s ≠ [].
Proof.
  destruct s as [|c s]; simpl; [done|].
  destruct (Ascii.eqb c sep); [done|].
  by destruct (split sep s).
Qed.

Lemma split_free sep w :
  free_of sep w → split sep w = [w].
Proof.
  induction w as [|c w IH]; simpl; [done|]. intros [Hc Hw].
  rewrite (proj2 (Ascii.eqb_neq _ _) Hc). by rewrite IH.
Qed.

Lemma split_append sep w rest :
  free_of sep w →
  split sep (w +:+ String sep rest) = w :: split sep rest.
Proof.
  induction w as [|c w IH]; simpl.
  - by rewrite Ascii.eqb_refl.
  - intros [Hc Hw]. rewrite (proj2 (Ascii.eqb_neq _ _) Hc). by rewrite IH.
Qed.

(** Lines joined by the separator split back into the same lines. *)
Lemma split_join sep parts :
  parts ≠ [] → Forall (free_of sep) parts →
  split sep (join sep parts) = parts.
Proof.
  intros Hne Hfree. induction Hfree as [|w parts Hw Hparts IH]; [done|].
  destruct parts as [|w' parts].
  - by apply split_free.
  - change (join sep (w :: w' :: parts))
      with (w +:+ String sep (join sep (w' :: parts))).
    rewrite split_append by done. by rewrite IH.
Qed.

(** The guard of [clean_step] is the name-line test. *)
Lemma guard_name_line lines i :
  (i =? 0)%nat
  || match lines !! (i - 1)%nat with
     | Some prev => bool_decide (prev ∈ action_labels)
     | None => false
     end = bool_decide (name_line lines i).
Proof.
  unfold action_labels.
  destruct (Nat.eqb_spec i 0) as [->|Hi].
  - by rewrite bool_decide_eq_true_2 by (by left).
  - rewrite orb_false_l. destruct (lines !! (i - 1)%nat) as [prev|] eqn:Hp.
    + apply bool_decide_ext. unfold name_line.
      rewrite Hp, !elem_of_cons, elem_of_nil.
      split.
      * intros [->|[->|[]]]; auto.
      * intros [?|[[= ->]|[= ->]]]; [done|auto..].
    + symmetry. apply bool_decide_eq_false. unfold name_line. rewrite Hp.
      intros [?|[?|?]]; done.
Qed.

(** The tag of [clean_step] is the rendering of the entity. *)
Lemma tag_render lines i line :
  lines !! i = Some line →
  match lines !! (i + 1)%nat with
  | Some next => if String.eqb next "Verified" then line +:+ " (Verified)" else line
  | None => line
  end = render (entity_at lines i).
Proof.
  intros Hl. unfold render, entity_at. cbn [name verified]. rewrite Hl.
  destruct (lines !! (i + 1)%nat) as [next|].
  - destruct (String.eqb_spec next "Verified") as [->|Hne].
    + by rewrite bool_decide_eq_true_2.
    + rewrite bool_decide_eq_false_2; [done|]. by intros [= ->].
  - by rewrite bool_decide_eq_false_2.
Qed.

Lemma clean_step_spec lines acc i :
  (i < length lines)%nat →
  clean_step lines acc i
  = (acc ++ ((render ∘ entity_at lines) <$> filter (name_line lines) [i]))%list.
Proof.
  intros Hi. unfold clean_step.
  destruct (lookup_lt_is_Some_2 lines i Hi) as [line Hl]. rewrite Hl.
  rewrite guard_name_line, (tag_render _ _ _ Hl).
  rewrite filter_cons, filter_nil.
  destruct (decide (name_line lines i)) as [Hn|Hn].
  - by rewrite bool_decide_eq_true_2.
  - rewrite bool_decide_eq_false_2 by done. simpl. by rewrite app_nil_r.
Qed.

Lemma foldl_clean_step lines n : ∀ a acc,
  (a + n ≤ length lines)%nat →
  foldl (clean_step lines) acc (seq a n)
  = (acc ++ ((render ∘ entity_at lines) <$> filter (name_line lines) (seq a n)))%list.
Proof.
  induction n as [|n IH]; intros a acc Hb; simpl.
  - by rewrite app_nil_r.
  - rewrite IH by lia. rewrite clean_step_spec by lia.
    rewrite <- app_assoc, <- fmap_app. f_equal. f_equal.
    by rewrite (filter_cons _ a (seq (S a) n)), filter_cons, filter_nil;
      destruct (decide (name_line lines a)).
Qed.

Lemma clean_list_entities raw :
  clean_list raw = render <$> entities (split nl raw).
Proof.
  unfold clean_list, entities, name_positions.
  rewrite foldl_clean_step by (simpl; lia).
  simpl. by rewrite list_fmap_compose.
Qed.

(** The first line is always a name line. *)
Lemma name_positions_head lines :
  lines ≠ [] → ∃ rest, name_positions lines = 0%nat :: rest.
Proof.
  intros Hne. unfold name_positions.
  destruct lines as [|l lines]; [done|]. simpl.
  rewrite filter_cons. rewrite decide_True by (by left). eauto.
Qed.

End ParserFacts.

Module ParserClaims.
Import PyStr Parser ParserFacts.

(** C3 (as stated, refuted): the parse of the empty blob is not the
    empty list. *)
Lemma empty_blob_parse_is_not_empty : clean_list "" ≠ [].
Proof. by vm_compute. Qed.

(** C3 (amended): parsing the empty blob yields one record, the empty
    name without a tag: [''.split('\n')] is [['']] and the first line
    is always taken as a name. *)
Theorem clean_list_empty_blob :
  split nl "" = [""] ∧ clean_list "" = [""].
Proof. by vm_compute. Qed.

(** C4: for every blob, with [lines] its lines and [positions] the
    indices of its name lines (the first line, and every line that
    follows a line equal to [Follow] or [Following]) in increasing
    order, the parser returns exactly one record per name line, in
    stream order; the record is the name tagged [(Verified)] iff the
    next line exists and equals [Verified]; a name line that is the last
    line gives the untagged name, and the parser never fails. *)
Theorem clean_list_name_lines (raw : string) :
  let lines := split nl raw in
  let positions := name_positions lines in
  clean_list raw = render <$> (entity_at lines <$> positions)
  ∧ length (clean_list raw) = length positions
  ∧ (∀ k i, positions !! k = Some i →
       ∃ line, lines !! i = Some line
         ∧ (verified (entity_at lines i) = true
            ↔ lines !! (i + 1)%nat = Some "Verified")
         ∧ clean_list raw !! k
           = Some (if verified (entity_at lines i)
                   then line +:+ " (Verified)" else line))
  ∧ (∀ k i line, positions !! k = Some i → lines !! i = Some line →
       (length lines ≤ i + 1)%nat → clean_list raw !! k = Some line).
Proof.
  intros lines positions.
  assert (Hall : clean_list raw = render <$> (entity_at lines <$> positions))
    by apply clean_list_entities.
  assert (Hrange : ∀ k i, positions !! k = Some i → (i < length lines)%nat).
  { intros k i Hk. apply list_elem_of_lookup_2 in Hk.
    apply list_elem_of_filter in Hk as [_ Hk].
    apply elem_of_seq in Hk. lia. }
  assert (Hrec : ∀ k i, positions !! k = Some i →
            clean_list raw !! k = Some (render (entity_at lines i))).
  { intros k i Hk. rewrite Hall, !list_lookup_fmap, Hk. done. }
  split; [done|]. split; [by rewrite Hall, !length_fmap|]. split.
  - intros k i Hk.
    destruct (lookup_lt_is_Some_2 lines i (Hrange _ _ Hk)) as [line Hl].
    exists line. split; [done|]. split.
    + simpl. apply bool_decide_eq_true.
    + rewrite (Hrec _ _ Hk). unfold render. simpl. by rewrite Hl.
  - intros k i line Hk Hl Hlast.
    rewrite (Hrec _ _ Hk). unfold render, entity_at. simpl.
    rewrite (lookup_ge_None_2 lines (i + 1)) by lia.
    rewrite bool_decide_eq_false_2 by done. by rewrite Hl.
Qed.

End ParserClaims.

(** ** The materialiser *)

Module MaterializerFacts.
Import PyStr Parser Effects Materializer.

Ltac unfold_M :=
  repeat (progress unfold mbind, M_bind, bind, mret, M_ret, ret, raise,
            out_of_fuel, find_element, observe, present, index,
            try_except in * ).

Lemma ticks_seen n : ∀ b, ticks n b = Browser (page b) (seen b + n).
Proof.
  induction n as [|n IH]; intros [pg t]; simpl.
  - f_equal. lia.
  - rewrite IH. simpl. f_equal. lia.
Qed.

Lemma find_element_some {A} (f : dom → option A) b a :
  f (page b (seen b)) = Some a → find_element f b = Return a (tick b).
Proof. intros H. unfold_M. by rewrite H. Qed.

Lemma find_panel_text b text :
  panel_text (page b (seen b)) = Some text →
  find_element panel_text b = Return text (tick b).
Proof. apply find_element_some. Qed.

Lemma progress_ok show_progress num_of_posts b :
  show_progress = false ∨ num_of_posts ≠ 0 →
  progress show_progress num_of_posts b = Return () b.
Proof.
  intros [->|Hn]; unfold progress; [done|].
  rewrite (proj2 (Z.eqb_neq _ _) Hn). by rewrite andb_false_r.
Qed.

(** With no stall detector, a loop below its target on a page that
    no longer changes uses up any amount of fuel. *)
Lemma users_loop_frozen text num_users fuel : ∀ list_of_users b,
  (∀ t, (seen b ≤ t)%nat → panel_text (page b t) = Some text) →
  count (clean_list text) < num_users →
  count list_of_users < num_users →
  users_loop fuel num_users list_of_users b = OutOfFuel.
Proof.
  induction fuel as [|fuel IH]; intros l b Hpage Hlt Hl; simpl;
    rewrite (proj2 (Z.ltb_lt _ _) Hl); [done|].
  unfold mbind, M_bind, bind. rewrite (find_panel_text _ text) by auto.
  apply IH; [|done..]. intros t Ht. apply Hpage. simpl in Ht. lia.
Qed.

Lemma half_step (d : Q) (k : Z) :
  (d == k # 2)%Q → (d + (1 # 2) == (k + 1) # 2)%Q.
Proof. intros ->. unfold Qeq, Qplus. simpl. lia. Qed.

Lemma half_is_five (d : Q) (k : Z) :
  (d == k # 2)%Q → Qeq_bool d 5 = bool_decide (k = 10).
Proof.
  intros Hd. rewrite Hd. case_bool_decide as Hk.
  - subst. by apply Qeq_bool_iff.
  - destruct (Qeq_bool (k # 2) 5) eqn:E; [|done].
    apply Qeq_bool_iff in E. unfold Qeq in E. simpl in E. lia.
Qed.

(** A poll that changes the count sets the idle time back to zero. *)
Lemma likes_loop_reset fuel show_progress num_of_posts num_of_likes
    list_of_users update_delay b text :
  count list_of_users < num_of_likes →
  panel_text (page b (seen b)) = Some text →
  count (clean_list text) ≠ count list_of_users →
  show_progress = false ∨ num_of_posts ≠ 0 →
  likes_loop (S fuel) show_progress num_of_posts num_of_likes
    list_of_users update_delay b
  = likes_loop fuel show_progress num_of_posts num_of_likes
      (clean_list text) 0 (tick b).
Proof.
  intros Hlt Htext Hne Hp. simpl. rewrite (proj2 (Z.ltb_lt _ _) Hlt).
  unfold mbind, M_bind, bind. rewrite (find_panel_text _ text) by done.
  rewrite progress_ok by done.
  by rewrite (proj2 (Z.eqb_neq _ _) Hne).
Qed.

(** The stall policy, [n] polls before the idle time reaches 5. *)
Lemma likes_loop_stall show_progress num_of_posts num_of_likes c n :
  ∀ (text : nat → string) fuel list_of_users update_delay b,
  (n < 10)%nat → (n < fuel)%nat →
  (update_delay == (9 - Z.of_nat n) # 2)%Q →
  count list_of_users = c → c < num_of_likes →
  (∀ j, (j ≤ n)%nat →
     panel_text (page b (seen b + j)) = Some (text j)
     ∧ count (clean_list (text j)) = c) →
  show_progress = false ∨ num_of_posts ≠ 0 →
  likes_loop fuel show_progress num_of_posts num_of_likes
    list_of_users update_delay b
  = if c + 1 =? num_of_likes
    then Return (clean_list (text n)) (ticks (S n) b)
    else Raise (IGAccessException (timeout_msg c num_of_likes)) (ticks (S n) b).
Proof.
  induction n as [|n IH]; intros text fuel l d b Hn Hfuel Hd Hl Hc Hpage Hp;
    (destruct fuel as [|fuel]; [lia|]); simpl;
    rewrite Hl, (proj2 (Z.ltb_lt _ _) Hc);
    unfold mbind, M_bind, bind;
    destruct (Hpage 0%nat ltac:(lia)) as [Ht0 Hc0];
    rewrite Nat.add_0_r in Ht0;
    rewrite (find_panel_text _ _ Ht0), progress_ok by done;
    rewrite Hc0, Z.eqb_refl;
    rewrite (half_is_five _ _ (half_step _ _ Hd)).
  - rewrite bool_decide_eq_true_2 by (simpl; lia).
    by destruct (c + 1 =? num_of_likes).
  - rewrite bool_decide_eq_false_2 by lia.
    rewrite (IH (λ j, text (S j)) fuel _ _ (tick b)
               ltac:(lia) ltac:(lia)); try done.
    + rewrite (half_step _ _ Hd).
      by replace (9 - Z.of_nat (S n) + 1) with (9 - Z.of_nat n) by lia.
    + intros j Hj. destruct (Hpage (S j) ltac:(lia)) as [H1 H2].
      simpl. by rewrite <- Nat.add_succ_r.
Qed.

Lemma latest_parse_tick b text :
  panel_text (page b (seen b)) = Some text →
  latest_parse b (clean_list text) (tick b).
Proof.
  intros H. split; [done|]. split; [simpl; lia|].
  exists text. simpl. by rewrite Nat.sub_0_r.
Qed.

Lemma latest_parse_after b b' l' b'' :
  page b' = page b → (seen b ≤ seen b')%nat →
  latest_parse b' l' b'' → latest_parse b l' b''.
Proof.
  intros Hp Hs (Hp' & Hs' & text & Ht & ->).
  split; [congruence|]. split; [lia|].
  exists text. by rewrite <- Hp.
Qed.

Lemma find_panel_text_inv b r :
  find_element panel_text b = r →
  match r with
  | Return text b' => panel_text (page b (seen b)) = Some text ∧ b' = tick b
  | Raise _ _ => True
  | OutOfFuel => False
  end.
Proof.
  intros <-. unfold_M.
  by destruct (panel_text (page b (seen b))).
Qed.

Lemma users_loop_latest fuel num_users : ∀ list_of_users b l b',
  users_loop fuel num_users list_of_users b = Return l b' →
  (l = list_of_users ∧ b' = b) ∨ latest_parse b l b'.
Proof.
  induction fuel as [|fuel IH]; intros l0 b l b'; simpl;
    destruct (count l0 <? num_users);
    try (intros [= -> ->]; by left); try done.
  unfold mbind, M_bind, bind.
  destruct (find_element panel_text b) as [text b1| |] eqn:E; [|done..].
  apply find_panel_text_inv in E as [Ht ->].
  intros [[-> ->]|H]%IH; right.
  - by apply latest_parse_tick.
  - eapply latest_parse_after; [| |exact H]; [done|simpl; lia].
Qed.

Lemma likes_loop_latest fuel show_progress num_of_posts num_of_likes :
  ∀ list_of_users update_delay b l b',
  likes_loop fuel show_progress num_of_posts num_of_likes
    list_of_users update_delay b = Return l b' →
  (l = list_of_users ∧ b' = b) ∨ latest_parse b l b'.
Proof.
  induction fuel as [|fuel IH]; intros l0 d b l b'; simpl;
    destruct (count l0 <? num_of_likes);
    try (intros [= -> ->]; by left); try done.
  unfold mbind, M_bind, bind.
  destruct (find_element panel_text b) as [text b1| |] eqn:E; [|done..].
  apply find_panel_text_inv in E as [Ht ->].
  unfold progress.
  destruct (show_progress && (num_of_posts =? 0)); [done|].
  unfold ret at 1.
  destruct (Qeq_bool _ 5).
  - destruct (negb _); [done|]. intros [= <- <-]. right.
    by apply latest_parse_tick.
  - intros [[-> ->]|H]%IH; right.
    + by apply latest_parse_tick.
    + eapply latest_parse_after; [| |exact H]; [done|simpl; lia].
Qed.

Lemma find_element_inv {A} (f : dom → option A) b a b' :
  find_element f b = Return a b' →
  f (page b (seen b)) = Some a ∧ b' = tick b.
Proof.
  unfold_M. destruct (f (page b (seen b))); [|done].
  by intros [= -> <-].
Qed.

Lemma get_list_of_users_latest fuel num_users b l b' :
  _get_list_of_users fuel num_users b = Return l b' → latest_parse b l b'.
Proof.
  unfold _get_list_of_users, mbind, M_bind, bind.
  destruct (find_element (present users_dialog) b) as [? b1| |] eqn:E1;
    [|done..].
  apply find_element_inv in E1 as [_ ->].
  destruct (find_element panel_text (tick b)) as [text b2| |] eqn:E2;
    [|done..].
  apply find_element_inv in E2 as [Ht ->].
  intros [[-> ->]|H]%users_loop_latest.
  - eapply latest_parse_after; [| |by apply latest_parse_tick];
      [done|simpl; lia].
  - eapply latest_parse_after; [| |exact H]; [done|simpl; lia].
Qed.

Lemma get_likes_from_post_latest fuel show_progress i num_of_posts b l b' :
  _get_likes_from_post fuel show_progress i num_of_posts b = Return l b' →
  latest_parse b l b'.
Proof.
  unfold _get_likes_from_post, mbind, M_bind, bind.
  destruct (find_element like_label b) as [n b1| |] eqn:E0; [|done..].
  apply find_element_inv in E0 as [_ ->].
  destruct (find_element (present likes_dialog) (tick b)) as [? b1| |] eqn:E1;
    [|done..].
  apply find_element_inv in E1 as [_ ->].
  destruct (find_element panel_text (tick (tick b))) as [text b2| |] eqn:E2;
    [|done..].
  apply find_element_inv in E2 as [Ht ->].
  intros [[-> ->]|H]%likes_loop_latest.
  - eapply latest_parse_after; [| |by apply latest_parse_tick];
      [done|simpl; lia].
  - eapply latest_parse_after; [| |exact H]; [done|simpl; lia].
Qed.

(** A decimal numeral written by [dec] reads back as the integer. *)
Lemma read_dec_dec (z : Z) : read_dec (dec z) = Some z.
Proof.
  unfold read_dec, dec. rewrite NilZero.isi.
  - simpl. by rewrite DecimalZ.of_to.
  - destruct z; simpl; try done.
    intros [= H]. by apply Unsigned.to_uint_nonnil in H.
  - destruct z; simpl; try done.
    intros [= H]. by apply Unsigned.to_uint_nonnil in H.
Qed.

End MaterializerFacts.

Module MaterializerClaims.
Import PyStr Parser Effects Materializer MaterializerFacts Fixtures.

(** C1 (a run of the code that departs from it): with the target at 3
    and a panel that shows one entry for ever, [_get_list_of_users]
    (followers, following) exhausts every amount of fuel: it never
    returns nor raises.  On the same page the likers loop does stop, with
    the stall error, after ten polls. *)
Theorem get_list_of_users_never_stalls_out :
  (∀ fuel, _get_list_of_users fuel 3 frozen = OutOfFuel)
  ∧ (∀ fuel, result (_get_likes_from_post (10 + fuel) false 0 1 frozen)
             = Some (inr (IGAccessException (timeout_msg 1 3)))).
Proof.
  split; intros fuel.
  - unfold _get_list_of_users, mbind, M_bind, bind. simpl.
    by apply (users_loop_frozen "A").
  - unfold _get_likes_from_post, mbind, M_bind, bind.
    rewrite (find_element_some like_label frozen 3) by done.
    rewrite (find_element_some (present likes_dialog) _ ()) by done.
    rewrite (find_element_some panel_text _ "A") by done.
    rewrite (likes_loop_stall false 1 3 1 9 (λ _, "A"));
      try done; try lia; by left.
Qed.

(** C2: while the count stays at the same value below the target, every
    poll adds 0.5 to the idle time; once [idle] such polls have been
    counted, [10 - idle] further polls with the count unchanged bring
    the idle time to 5, and the loop then ends: with the list of the
    last snapshot when [count + 1 = target], and otherwise with the
    stall error, whose message holds the count and the target as decimal
    numerals ([... getting user <count> of <target>, ...]).
    [idle = 0] is the state at the start of the loop and after any poll
    that changed the count. *)
Theorem stall_policy_resolves (show_progress : bool)
    (num_of_posts num_of_likes : Z) (text : nat → string) (idle fuel : nat)
    (list_of_users : list string) (update_delay : Q) (b : browser) :
  (idle < 10)%nat →
  (update_delay == Z.of_nat idle # 2)%Q →
  count list_of_users < num_of_likes →
  (∀ j, (j < 10 - idle)%nat →
     panel_text (page b (seen b + j)) = Some (text j)
     ∧ count (clean_list (text j)) = count list_of_users) →
  show_progress = false ∨ num_of_posts ≠ 0 →
  (10 - idle ≤ fuel)%nat →
  likes_loop fuel show_progress num_of_posts num_of_likes
    list_of_users update_delay b
  = (if count list_of_users + 1 =? num_of_likes
     then Return (clean_list (text (9 - idle)%nat))
            (Browser (page b) (seen b + (10 - idle)))
     else Raise (IGAccessException
                   ("TIMEOUT ERROR: Page hasn't refreshed for 5 seconds, loop stopped at getting user "
                    +:+ dec (count list_of_users) +:+ " of "
                    +:+ dec num_of_likes
                    +:+ ", try again when you have better internet speeds"))
            (Browser (page b) (seen b + (10 - idle))))
  ∧ read_dec (dec (count list_of_users)) = Some (count list_of_users)
  ∧ read_dec (dec num_of_likes) = Some num_of_likes.
Proof.
  intros Hidle Hd Hlt Hpage Hp Hfuel.
  split; [|split; apply read_dec_dec].
  rewrite (likes_loop_stall show_progress num_of_posts num_of_likes
             (count list_of_users) (9 - idle) text); try done; try lia.
  - rewrite ticks_seen. by replace (S (9 - idle)) with (10 - idle)%nat by lia.
  - rewrite Hd. by replace (9 - Z.of_nat (9 - idle)) with (Z.of_nat idle) by lia.
  - intros j Hj. apply Hpage. lia.
Qed.

Lemma stall_policy_resolves_witness :
  likes_loop 10 false 1 6 ["A"; "B"; "C"; "D"] 0 four_of_five
  = Raise (IGAccessException
             "TIMEOUT ERROR: Page hasn't refreshed for 5 seconds, loop stopped at getting user 4 of 6, try again when you have better internet speeds")
      (Browser (page four_of_five) 10)
  ∧ read_dec "4" = Some 4
  ∧ read_dec "6" = Some 6.
Proof.
  apply (stall_policy_resolves false 1 6
           (λ _, join nl ["A"; "Follow"; "B"; "Follow"; "C"; "Follow"; "D"])
           0 10 ["A"; "B"; "C"; "D"] 0 four_of_five).
  - lia.
  - reflexivity.
  - reflexivity.
  - intros j _. split; reflexivity.
  - left; reflexivity.
  - lia.
Defined.

(** The scenario of the off-by-one rule: a target of 5 and a count that
    stays at 4 end the loop with the four entries. *)
Example four_of_five_is_done :
  likes_loop 10 false 1 5 ["A"; "B"; "C"; "D"] 0 four_of_five
  = Return ["A"; "B"; "C"; "D"] (Browser (page four_of_five) 10).
Proof. by vm_compute. Qed.

(** C5 (as stated, refuted): a run whose panel first shows [A] and
    then [B] twice returns [B; B]: a name occurs twice, and [A], seen
    earlier, is gone. *)
Lemma running_list_with_duplicate :
  result (_get_list_of_users 5 2 repeated) = Some (inl ["B"; "B"])
  ∧ ¬ NoDup ["B"; "B"] ∧ "A" ∉ ["B"; "B"].
Proof.
  split; [by vm_compute|]. split.
  - intros H. inversion H as [|? ? Hin]. apply Hin. by left.
  - by intros [[=]|[[=]|[]%elem_of_nil]%elem_of_cons]%elem_of_cons.
Qed.

(** C5 (amended): the list a materialisation run returns is the parse
    of the snapshot read last, by itself: each poll replaces the running
    list with the parse of the new snapshot; nothing is merged and
    nothing is concatenated. *)
Theorem running_list_is_latest_parse (fuel : nat) (target : Z)
    (show_progress : bool) (i : nat) (num_of_posts : Z)
    (b : browser) (l : list string) (b' : browser) :
  _get_list_of_users fuel target b = Return l b'
  ∨ _get_likes_from_post fuel show_progress i num_of_posts b = Return l b' →
  (seen b < seen b')%nat
  ∧ ∃ text, panel_text (page b (seen b' - 1)) = Some text
            ∧ l = clean_list text.
Proof.
  intros [H|H].
  - by apply get_list_of_users_latest in H as (_ & ? & ?).
  - by apply get_likes_from_post_latest in H as (_ & ? & ?).
Qed.

Lemma running_list_is_latest_parse_witness :
  (0 < 3)%nat
  ∧ ∃ text, panel_text (page repeated (3 - 1)) = Some text
            ∧ ["B"; "B"] = clean_list text.
Proof.
  apply (running_list_is_latest_parse 5 2 false 0 0 repeated ["B"; "B"]
           (Browser (page repeated) 3)).
  left. reflexivity.
Defined.

End MaterializerClaims.

(** ** The post walker *)

Module WalkerFacts.
Import PyStr Parser Effects Materializer Data Walker.
Import ParserFacts MaterializerFacts.

Lemma bind_inv {A B} (m : M A) (k : A → M B) b x b' :
  (m ≫= k) b = Return x b' →
  ∃ a b1, m b = Return a b1 ∧ k a b1 = Return x b'.
Proof.
  unfold mbind, M_bind, bind.
  destruct (m b) as [a b1| |]; [eauto|done..].
Qed.

Lemma bind_eq {A B} (m : M A) (k : A → M B) b a b1 :
  m b = Return a b1 → (m ≫= k) b = k a b1.
Proof. intros H. unfold mbind, M_bind, bind. by rewrite H. Qed.

(** A link that starts with [/p/] has a third component. *)
Lemma href_post_id_some href :
  startswith "/p/" href = true → is_Some (href_post_id href).
Proof.
  unfold href_post_id. intros H. rewrite H. unfold startswith in H.
  destruct href as [|c1 [|c2 [|c3 rest]]]; cbn [String.prefix] in H;
    try done;
    repeat (match type of H with
            | context [ascii_dec ?a ?b] => destruct (ascii_dec a b); subst
            end; try done).
  simpl. pose proof (split_nonempty "/" rest) as Hne.
  destruct (split "/" rest); [done|]. by eexists.
Qed.

Lemma refresh_cons data_per_post href links :
  refresh data_per_post (href :: links)
  = refresh (refresh_step data_per_post href) links.
Proof. done. Qed.

(** A refresh appends, in page order and once each, the ids that the
    page shows and the list does not hold. *)
Lemma refresh_new links : ∀ data_per_post, ∃ new_ids,
  refresh data_per_post links = (data_per_post ++ (new_post <$> new_ids))%list
  ∧ NoDup new_ids
  ∧ (∀ x, x ∈ new_ids ↔ x ∈ surfaced links ∧ x ∉ id <$> data_per_post)
  ∧ sublist new_ids (surfaced links).
Proof.
  induction links as [|href links IH]; intros dpp.
  - exists []. simpl. rewrite app_nil_r.
    split; [done|]. split; [constructor|]. split; [|constructor].
    intros x. split; [by intros ?%elem_of_nil|].
    by intros [?%elem_of_nil _].
  - rewrite refresh_cons. unfold refresh_step, surfaced. simpl.
    fold (surfaced links).
    destruct (href_post_id href) as [x|] eqn:E; [|by apply IH].
    case_bool_decide as Hx.
    + destruct (IH (dpp ++ [new_post x])%list) as (new & Heq & Hnd & Hin & Hsub).
      exists (x :: new). split; [by rewrite Heq, <- app_assoc|].
      split.
      { constructor; [|done]. intros [_ Hn]%Hin. apply Hn.
        rewrite fmap_app. apply elem_of_app. right. by left. }
      split; [|by constructor].
      intros y. rewrite !elem_of_cons, Hin, fmap_app, elem_of_app.
      simpl. rewrite list_elem_of_singleton.
      destruct (decide (y = x)) as [->|Hne]; intuition congruence.
    + destruct (IH dpp) as (new & Heq & Hnd & Hin & Hsub).
      exists new. split; [done|]. split; [done|].
      split; [|by constructor].
      intros y. rewrite elem_of_cons, Hin.
      destruct (decide (y = x)) as [->|Hne]; intuition congruence.
Qed.

Lemma new_ids_length (recorded new_ids shown : list string) :
  NoDup new_ids →
  (∀ x, x ∈ new_ids ↔ x ∈ shown ∧ x ∉ recorded) →
  length new_ids
  = length (remove_dups (filter (λ x, x ∉ recorded) shown)).
Proof.
  intros Hnd Hin. apply Permutation_length, NoDup_Permutation;
    [done|apply NoDup_remove_dups|].
  intros x. rewrite elem_of_remove_dups, list_elem_of_filter, Hin.
  tauto.
Qed.

Lemma alter_set_comments_ids c i (data_per_post : list post) :
  id <$> alter (set_comments c) i data_per_post = id <$> data_per_post.
Proof.
  apply list_eq. intros j. rewrite !list_lookup_fmap.
  destruct (decide (i = j)) as [->|Hne].
  - rewrite list_lookup_alter_eq. by destruct (data_per_post !! j).
  - by rewrite list_lookup_alter_ne.
Qed.

(** *** Every walked post carries its likes *)

Lemma like_step_alters fuel show_progress num_of_posts dpp i b dpp' b' :
  like_step fuel show_progress num_of_posts dpp i b = Return dpp' b' →
  ∃ users, dpp' = alter (set_likes users) i dpp.
Proof.
  unfold like_step. intros (users & b1 & _ & H)%bind_inv.
  apply bind_inv in H as (? & b2 & _ & H).
  exists users. unfold mret, M_ret, ret in H. congruence.
Qed.

Lemma like_loop_likes fuel show_progress num_of_posts n :
  ∀ a dpp b dpp' b',
  for_each (seq a n) (like_step fuel show_progress num_of_posts) dpp b
    = Return dpp' b' →
  length dpp' = length dpp
  ∧ ∀ j p', dpp' !! j = Some p' →
      (a ≤ j < a + n)%nat ∨ (∃ p, dpp !! j = Some p ∧ is_Some (likes p)) →
      is_Some (likes p').
Proof.
  induction n as [|n IH]; intros a dpp b dpp' b'; simpl.
  - intros [= -> ->]. split; [done|].
    intros j p' Hj [?|(p & Hp & ?)]; [lia|]. congruence.
  - intros (dpp1 & b1 & Hstep & Hrest)%bind_inv.
    apply like_step_alters in Hstep as [users ->].
    apply IH in Hrest as [Hlen Hrest].
    rewrite length_alter in Hlen. split; [done|].
    intros j p' Hj Hcase. apply (Hrest j p' Hj).
    destruct (decide (j = a)) as [->|Hne].
    + right. rewrite list_lookup_alter_eq.
      destruct (lookup_lt_is_Some_2 dpp a) as [p Hp].
      { rewrite <- Hlen. by eapply lookup_lt_Some. }
      exists (set_likes users p). rewrite Hp. split; [done|]. by eexists.
    + destruct Hcase as [?|(p & Hp & ?)]; [left; lia|].
      right. exists p. by rewrite list_lookup_alter_ne.
Qed.

Lemma get_like_data_likes fuel show_progress num_of_posts dpp b dpp' b' :
  _get_like_data fuel show_progress num_of_posts dpp b = Return dpp' b' →
  Forall (λ p, is_Some (likes p)) dpp'.
Proof.
  unfold _get_like_data. intros (? & b1 & _ & H)%bind_inv.
  apply like_loop_likes in H as [Hlen H].
  apply Forall_lookup. intros j p' Hj. apply (H j p' Hj). left.
  apply lookup_lt_Some in Hj. lia.
Qed.

Lemma likes_list_from acc (dpp : list post) b :
  Forall (λ p, is_Some (likes p)) dpp →
  ∃ xs, likes <$> dpp = Some <$> xs
    ∧ for_each dpp
        (λ (acc : list Z) data, n ← likes_of data; ret (acc ++ [n])%list)
        acc b
      = Return (acc ++ xs)%list b.
Proof.
  intros H. revert acc. induction H as [|p dpp [n Hn] _ IH]; intros acc.
  - exists []. by rewrite app_nil_r.
  - destruct (IH (acc ++ [n])%list) as (xs & Hxs & Hrun).
    exists (n :: xs). split; [by rewrite !fmap_cons, Hn, Hxs|].
    simpl. rewrite (bind_eq _ _ b (acc ++ [n])%list b).
    + by rewrite Hrun, <- app_assoc.
    + unfold likes_of. by rewrite Hn.
Qed.

Lemma foldl_add (xs : list Z) : ∀ a, foldl Z.add a xs = a + foldr Z.add 0 xs.
Proof.
  induction xs as [|x xs IH]; intros a; simpl; [lia|]. rewrite IH. lia.
Qed.

Lemma py_sum_foldr (xs : list Z) : py_sum xs = foldr Z.add 0 xs.
Proof. unfold py_sum. by rewrite foldl_add. Qed.

End WalkerFacts.

Module WalkerClaims.
Import PyStr Parser Effects Materializer Data Walker.
Import MaterializerFacts WalkerFacts Fixtures MoreFixtures.

(** C6: a turn [i] of the scan of the post ids records the comments of
    post [i] and, exactly when [i + 1] is a multiple of 12, reads the
    page again and appends [new_ids]: the post ids the page then shows
    that are not recorded yet, each once, in page order.  The recorded
    ids keep their places, so the list grows by the number of distinct
    new ids. *)
Theorem scan_step_requeries (data_per_post : list post) (i : nat)
    (b : browser) (p : post) (item : string) :
  data_per_post !! i = Some p →
  post_img (page b (seen b)) (id p) = true →
  comment_items (page b (1 + seen b)) !! 0%nat = Some item →
  let recorded := alter (set_comments (hd "" (split "c" item))) i data_per_post in
  let links := page_links (page b (2 + seen b)) in
  ∃ new_ids,
    scan_step data_per_post i b
    = (if (Z.of_nat i + 1) mod 12 =? 0
       then Return (recorded ++ (new_post <$> new_ids))%list (ticks 3 b)
       else Return recorded (ticks 2 b))
    ∧ id <$> recorded = id <$> data_per_post
    ∧ NoDup new_ids
    ∧ (∀ x, x ∈ new_ids ↔ x ∈ surfaced links ∧ x ∉ id <$> data_per_post)
    ∧ sublist new_ids (surfaced links)
    ∧ length new_ids
      = length (remove_dups
                  (filter (λ x, x ∉ id <$> data_per_post) (surfaced links))).
Proof.
  intros Hp Himg Hitem recorded links.
  destruct (refresh_new links recorded) as (new_ids & Heq & Hnd & Hin & Hsub).
  assert (Hids : id <$> recorded = id <$> data_per_post)
    by apply alter_set_comments_ids.
  rewrite Hids in Hin.
  exists new_ids.
  split; [|do 4 (split; [done|]); by apply new_ids_length].
  unfold scan_step.
  rewrite (bind_eq _ _ b p b) by (unfold index; by rewrite Hp).
  rewrite (bind_eq _ _ b () (tick b))
    by (apply find_element_some; unfold present; by rewrite Himg).
  rewrite (bind_eq _ _ (tick b) (comment_items (page b (1 + seen b)))
             (ticks 2 b)) by done.
  rewrite (bind_eq _ _ (ticks 2 b) item (ticks 2 b))
    by (unfold index; by rewrite Hitem).
  fold recorded. destruct ((Z.of_nat i + 1) mod 12 =? 0); [|done].
  rewrite (bind_eq _ _ (ticks 2 b) links (ticks 3 b)) by done.
  unfold mret, M_ret, ret. by rewrite Heq.
Qed.

Lemma scan_step_requeries_witness :
  ∃ l b', scan_step thirteen 11 scrolled = Return l b'
    ∧ length thirteen = 13%nat ∧ length l = 15%nat
    ∧ take 13 (id <$> l) = id <$> thirteen.
Proof.
  destruct (scan_step_requeries thirteen 11 scrolled (new_post "p12")
              "3 comments")
    as (new_ids & Hrun & Hids & _ & _ & _ & Hlen);
    [reflexivity|reflexivity|reflexivity|].
  eexists _, _. split; [exact Hrun|]. split; [reflexivity|]. split.
  - rewrite length_app, length_alter, length_fmap, Hlen. by vm_compute.
  - rewrite fmap_app, take_app_length'; [exact Hids|].
    by rewrite length_fmap, length_alter.
Defined.

(** C7 (a run of the code that departs from it): two posts are to be
    walked and the dialog never has a next arrow.  The walk does not
    stop after the first post: it goes on to the second entry and
    records for it the likers of the post that is still open. *)
Theorem get_like_data_goes_on_without_next :
  next_arrow (page last_post 4) = false
  ∧ result (_get_like_data 0 false 2 [new_post "a"; new_post "b"] last_post)
    = Some (inl [Post "a" None (Some 1) (Some ["u1"]);
                 Post "b" None (Some 1) (Some ["u1"])]).
Proof. by vm_compute. Qed.

(** C8: once the posts are walked, every collected post has a [likes]
    field and [total_likes] is the sum of these fields.  When no post was
    collected, [collect_posts_data] returns with [avg_likes] the integer 0
    and divides nothing.  When there are posts, [avg_likes] is
    [total_likes] divided by their number: the binary64 quotient of the
    two integers, as Python's division gives it; no [ZeroDivisionError]
    is raised, and [collect_posts_data] returns unless the quotient is too
    large for a float. *)
Theorem posts_aggregate (fuel : nat) (self : igaccess) (username : string)
    (b : browser) (data_per_post : list post) (b' : browser) :
  walk_posts fuel (show_progress self) b = Return data_per_post b' →
  ∃ xs,
    likes <$> data_per_post = Some <$> xs
    ∧ (data_per_post = [] →
         collect_posts_data fuel self username b
         = Return
             (set_profile self username
                (<["avg_likes" := VInt 0]>
                   (<["total_likes" := VInt 0]>
                      (<["data_per_post" := VPosts []]>
                         (profile_of self username))))) b')
    ∧ (data_per_post ≠ [] →
         match SFdiv 53 1024 (to_float (foldr Z.add 0 xs))
                 (to_float (Z.of_nat (length data_per_post))) with
         | S754_infinity _ =>
             collect_posts_data fuel self username b = Raise OverflowError b'
         | x =>
             collect_posts_data fuel self username b
             = Return
                 (set_profile self username
                    (<["avg_likes" := VNum x]>
                       (<["total_likes" := VInt (foldr Z.add 0 xs)]>
                          (<["data_per_post" := VPosts data_per_post]>
                             (profile_of self username))))) b'
         end).
Proof.
  intros Hwalk.
  assert (Hlikes : Forall (λ p, is_Some (likes p)) data_per_post).
  { unfold walk_posts in Hwalk.
    apply bind_inv in Hwalk as ([n links] & b1 & _ & Hwalk).
    apply bind_inv in Hwalk as (dpp & b2 & _ & Hwalk).
    by eapply get_like_data_likes. }
  destruct (likes_list_from [] data_per_post b' Hlikes) as (xs & Hxs & Hrun).
  exists xs. split; [done|].
  unfold collect_posts_data.
  rewrite (bind_eq _ _ _ _ _ Hwalk).
  unfold likes_list. rewrite (bind_eq _ _ _ _ _ Hrun).
  rewrite py_sum_foldr. unfold average. split.
  - intros ->. apply (f_equal length) in Hxs.
    rewrite length_fmap in Hxs. by destruct xs.
  - intros Hne. destruct data_per_post as [|p rest]; [done|].
    cbn [length Nat.eqb negb]. unfold py_truediv.
    destruct (Z.eqb_spec (Z.of_nat (S (length rest))) 0) as [H0|_]; [lia|].
    by destruct (SFdiv 53 1024 _ _).
Qed.

Lemma posts_aggregate_witness :
  collect_posts_data 0 fresh "user" four_likes
  = Return
      (set_profile fresh "user"
         (<["avg_likes" := VNum (S754_finite false 6004799503160661 (-52))]>
            (<["total_likes" := VInt 4]>
               (<["data_per_post" :=
                    VPosts [Post "a" (Some "3 ") (Some 2) (Some ["u1"; "u2"]);
                            Post "b" (Some "3 ") (Some 1) (Some ["u1"]);
                            Post "c" (Some "3 ") (Some 1) (Some ["u1"])]]>
                  (profile_of fresh "user"))))) (ticks 20 four_likes).
Proof.
  destruct (posts_aggregate 0 fresh "user" four_likes
              [Post "a" (Some "3 ") (Some 2) (Some ["u1"; "u2"]);
               Post "b" (Some "3 ") (Some 1) (Some ["u1"]);
               Post "c" (Some "3 ") (Some 1) (Some ["u1"])]
              (ticks 20 four_likes)) as (xs & Hxs & _ & Hrun);
    [by vm_compute|].
  destruct xs as [|x1 [|x2 [|x3 [|x4 xs]]]]; try discriminate Hxs.
  injection Hxs as <- <- <-.
  specialize (Hrun ltac:(discriminate)).
  assert (E : SFdiv 53 1024 (to_float (foldr Z.add 0 [2; 1; 1]))
                 (to_float (Z.of_nat 3))
              = S754_finite false 6004799503160661 (-52))
    by (by vm_compute).
  cbn [length] in Hrun. rewrite E in Hrun. exact Hrun.
Defined.

(** The empty case on a run: no post, a mean of 0 and no division. *)
Example no_posts_aggregate :
  collect_posts_data 0 fresh "user" no_posts
  = Return
      (set_profile fresh "user"
         (<["avg_likes" := VInt 0]>
            (<["total_likes" := VInt 0]>
               (<["data_per_post" := VPosts []]>
                  (profile_of fresh "user"))))) (tick no_posts).
Proof. reflexivity. Qed.

(** Python's division on a few pairs: 1/3, 2/2, 10/4, 0/5, and a
    quotient that needs more than one rounding step. *)
Example py_truediv_samples :
  py_truediv 1 3 = inl (S754_finite false 6004799503160661 (-54))
  ∧ py_truediv 2 2 = inl (S754_finite false 4503599627370496 (-52))
  ∧ py_truediv 10 4 = inl (S754_finite false 5629499534213120 (-51))
  ∧ py_truediv 0 5 = inl (S754_zero false)
  ∧ py_truediv 9007199254740993 3
    = inl (S754_finite false 6004799503160662 (-1))
  ∧ py_truediv 1 0 = inr ZeroDivisionError.
Proof. by vm_compute. Qed.

End WalkerClaims.

(** ** Follow lists *)

Module FollowClaims.
Import PyStr Parser Effects Materializer Data Follow.
Import MaterializerFacts WalkerFacts Fixtures.

(** C10: when [collect_follow_data] completes, the profile of
    [username] holds the two lists that [_get_followers] and
    [_get_following] returned, and [num_followers] and [num_following]
    are the lengths of these very lists, whatever the count labels of
    the page read. *)
Theorem follow_counts_are_lengths (fuel : nat) (self : igaccess)
    (username : string) (b : browser) (self' : igaccess) (b' : browser) :
  collect_follow_data fuel self username b = Return self' b' →
  ∃ followers following b1 p,
    _get_followers fuel b = Return followers b1
    ∧ _get_following fuel b1 = Return following b'
    ∧ data self' !! username = Some p
    ∧ p !! "followers" = Some (VNames followers)
    ∧ p !! "following" = Some (VNames following)
    ∧ p !! "num_followers" = Some (VInt (Z.of_nat (length followers)))
    ∧ p !! "num_following" = Some (VInt (Z.of_nat (length following))).
Proof.
  unfold collect_follow_data.
  intros (followers & b1 & Hers & H)%bind_inv.
  apply bind_inv in H as (following & b2 & Hing & H).
  unfold mret, M_ret, ret in H. injection H as <- <-.
  exists followers, following, b1. eexists.
  split; [done|]. split; [done|].
  split; [apply lookup_insert_eq|].
  by repeat split; simplify_map_eq.
Qed.

Lemma follow_counts_are_lengths_witness :
  ∃ followers following b1 p,
    _get_followers 0 three_under_two = Return followers b1
    ∧ _get_following 0 b1 = Return following (ticks 6 three_under_two)
    ∧ data (IGAccess false
              {[ "user" :=
                 <["following" := VNames ["A"; "B"; "C"]]>
                   (<["followers" := VNames ["A"; "B"; "C"]]>
                      (<["num_following" := VInt 3]>
                         (<["num_followers" := VInt 3]> ∅))) ]})
        !! "user" = Some p
    ∧ p !! "followers" = Some (VNames followers)
    ∧ p !! "following" = Some (VNames following)
    ∧ p !! "num_followers" = Some (VInt (Z.of_nat (length followers)))
    ∧ p !! "num_following" = Some (VInt (Z.of_nat (length following))).
Proof.
  apply (follow_counts_are_lengths 0 fresh "user" three_under_two).
  reflexivity.
Defined.

End FollowClaims.

(** ** Persistence *)

Module PersistFacts.
Import Effects Data Persist.

Section Json.
Context {J : Type} (encode : gmap string value → J).

(** The loop of [output_data] overwrites the keys of [self.data] and
    leaves every other key as it was. *)
Lemma update_all_lookup (self : igaccess) (m : gmap string J) (user : string) :
  update_all encode self m !! user
  = match data self !! user with
    | Some p => Some (encode p)
    | None => m !! user
    end.
Proof.
  unfold update_all.
  apply (map_fold_weak_ind
           (λ (r : gmap string J) (d : gmap string (gmap string value)),
              r !! user = match d !! user with
                          | Some p => Some (encode p)
                          | None => m !! user
                          end)).
  - by rewrite lookup_empty.
  - intros k p d r Hk IH.
    destruct (decide (k = user)) as [->|Hne].
    + by rewrite !lookup_insert_eq.
    + by rewrite !lookup_insert_ne.
Qed.
End Json.

End PersistFacts.

Module PersistClaims.
Import Effects Data Persist PersistFacts Fixtures.

(** C9 (as stated, refuted): a damaged file is not always taken as an
    empty map.  A file whose bytes are no text makes [output_data] raise
    [UnicodeDecodeError]; a file that holds JSON other than an object
    makes it raise [TypeError], after the file was emptied. *)
Lemma damaged_file_is_fatal :
  output_data (λ p, p) collected Unreadable
  = (Some UnicodeDecodeError, Unreadable)
  ∧ output_data (λ p, p) collected (Decoded JOther)
    = (Some TypeError, Undecodable).
Proof.
  split; [done|]. unfold output_data. rewrite decide_False; [done|].
  intros H. apply (f_equal (lookup "ann")) in H.
  unfold collected in H. cbn [data] in H.
  by rewrite lookup_singleton_eq, lookup_empty in H.
Qed.

(** C9 (amended): when [analytic_data.json] is absent, holds text that
    is not JSON (the empty text, or text damaged so: [JSONDecodeError]),
    or holds an object [m0] (taken as empty in the first two cases),
    [output_data] fails with nothing and leaves in the file an object in
    which every key of [self.data] carries the freshly collected value
    and every other key carries what [m0] had. *)
Theorem output_data_merges {J : Type} (encode : gmap string value → J)
    (self : igaccess) (f : file) (m0 : gmap string J) :
  (f = Missing ∧ m0 = ∅) ∨ (f = Undecodable ∧ m0 = ∅)
  ∨ f = Decoded (JObject m0) →
  ∃ m', output_data encode self f = (None, Decoded (JObject m'))
    ∧ (∀ user p, data self !! user = Some p → m' !! user = Some (encode p))
    ∧ (∀ user, data self !! user = None → m' !! user = m0 !! user).
Proof.
  intros Hf. exists (update_all encode self m0). split.
  - by destruct Hf as [[-> ->]|[[-> ->]| ->]].
  - split.
    + intros user p Hp. by rewrite update_all_lookup, Hp.
    + intros user Hp. by rewrite update_all_lookup, Hp.
Qed.

Lemma output_data_merges_witness :
  ∃ m', output_data (λ p, p) collected (Decoded (JObject stored))
        = (None, Decoded (JObject m'))
    ∧ (∀ user p, data collected !! user = Some p → m' !! user = Some p)
    ∧ (∀ user, data collected !! user = None → m' !! user = stored !! user).
Proof.
  apply (output_data_merges (λ p, p) collected (Decoded (JObject stored)) stored).
  right. right. reflexivity.
Defined.

(** A concrete run: [ann] is overwritten, [bob] is kept. *)
Example output_data_run :
  ∃ m', output_data (λ p, p) collected (Decoded (JObject stored))
        = (None, Decoded (JObject m'))
    ∧ m' !! "ann" = Some {[ "num_followers" := VInt 3 ]}
    ∧ m' !! "bob" = Some {[ "num_followers" := VInt 7 ]}
    ∧ m' !! "cat" = None.
Proof.
  eexists. split; [reflexivity|].
  rewrite !update_all_lookup. by repeat split.
Qed.

(** A file that holds JSON other than an object is outside the three
    cases: the item assignment raises [TypeError]. *)
Example output_data_not_an_object :
  output_data (λ p, p) collected (Decoded JOther)
  = (Some TypeError, Undecodable).
Proof.
  unfold output_data. rewrite decide_False; [done|].
  intros H. apply (f_equal (lookup "ann")) in H.
  unfold collected in H. cbn [data] in H.
  by rewrite lookup_singleton_eq, lookup_empty in H.
Qed.

End PersistClaims.


(** * Further properties *)

(** ** The parser, line by line *)

Module BlobFacts.
Import PyStr Parser ParserFacts Blob.

Lemma name_line_last (pre suf : list string) :
  bool_decide (name_line (pre ++ suf) (length pre))
  = match last pre with
    | None => true
    | Some p => bool_decide (p ∈ action_labels)
    end.
Proof.
  destruct pre as [|x pre _] using rev_ind.
  - apply bool_decide_eq_true. by left.
  - rewrite last_snoc. apply bool_decide_ext. unfold name_line, action_labels.
    rewrite length_app. simpl.
    replace (length pre + 1 - 1)%nat with (length pre + 0)%nat by lia.
    rewrite <- app_assoc, lookup_app_r by lia.
    replace (length pre + 0 - length pre)%nat with 0%nat by lia. simpl.
    rewrite !elem_of_cons, elem_of_nil. split.
    + intros [?|[[= <-]|[= <-]]]; [lia|auto..].
    + intros [->|[->|[]]]; auto.
Qed.

Lemma entity_at_middle (pre : list string) line rest :
  render (entity_at (pre ++ line :: rest) (length pre))
  = if bool_decide (head rest = Some "Verified")
    then line +:+ " (Verified)" else line.
Proof.
  unfold render, entity_at. cbn [name verified].
  rewrite (list_lookup_middle pre rest line (length pre)) by done. simpl.
  replace (length pre + 1)%nat with (length (pre ++ [line])%list + 0)%nat
    by (rewrite length_app; simpl; lia).
  rewrite (cons_middle line pre rest), app_assoc, lookup_app_r by lia.
  replace (length (pre ++ [line])%list + 0 - length (pre ++ [line])%list)%nat
    with 0%nat by lia.
  by destruct rest.
Qed.

Lemma entities_parse_from (suf : list string) : ∀ pre,
  render <$> (entity_at (pre ++ suf)
                <$> filter (name_line (pre ++ suf))
                      (seq (length pre) (length suf)))
  = parse_from (last pre) suf.
Proof.
  induction suf as [|line rest IH]; intros pre; [done|].
  cbn [length seq parse_from]. rewrite filter_cons.
  pose proof (name_line_last pre (line :: rest)) as Hhere.
  specialize (IH (pre ++ [line])%list).
  rewrite <- app_assoc, length_app, last_snoc in IH. simpl in IH.
  replace (length pre + 1)%nat with (S (length pre)) in IH by lia.
  destruct (last pre) as [p|];
    destruct (decide (name_line (pre ++ line :: rest) (length pre))) as [Hn|Hn].
  - rewrite bool_decide_eq_true_2 in Hhere by done. rewrite <- Hhere.
    rewrite !fmap_cons, IH. by rewrite entity_at_middle.
  - rewrite bool_decide_eq_false_2 in Hhere by done. rewrite <- Hhere.
    by rewrite IH.
  - rewrite !fmap_cons, IH. by rewrite entity_at_middle.
  - by rewrite bool_decide_eq_false_2 in Hhere.
Qed.

(** The index loop of [_clean_list] is the one-pass parser. *)
Lemma clean_list_parse_from raw :
  clean_list raw = parse_from None (split nl raw).
Proof.
  rewrite clean_list_entities. unfold entities, name_positions.
  apply (entities_parse_from (split nl raw) []).
Qed.

Lemma parse_from_no_button (lines : list string) : ∀ p,
  p ∉ action_labels → Forall (λ l, l ∉ action_labels) lines →
  parse_from (Some p) lines = [].
Proof.
  induction lines as [|l lines IH]; intros p Hp Hall; [done|].
  inversion Hall as [|? ? Hl Hrest]; subst. simpl.
  rewrite bool_decide_eq_false_2 by done. by apply IH.
Qed.

Lemma label_not_marker (b : string) : b ∈ action_labels → b ≠ "Verified".
Proof.
  unfold action_labels. rewrite !elem_of_cons, elem_of_nil.
  by intros [->|[->|[]]].
Qed.

Lemma label_free (b : string) : b ∈ action_labels → free_of nl b.
Proof.
  unfold action_labels. rewrite !elem_of_cons, elem_of_nil.
  intros [->|[->|[]]]; simpl; repeat split; by intros [=].
Qed.

Lemma blob_lines_cons r rows :
  blob_lines (r :: rows) = (row_lines r ++ blob_lines rows)%list.
Proof. done. Qed.

Lemma parse_rows (rows : list row) : ∀ prev,
  Forall plain_row rows →
  match prev with None => True | Some p => p ∈ action_labels end →
  parse_from prev (blob_lines rows) = render <$> (who <$> rows).
Proof.
  induction rows as [|r rows IH]; intros prev Hall Hprev; [done|].
  inversion Hall as [|? ? (Hfree & Hname & Hbutton) Hrest]; subst.
  rewrite blob_lines_cons, !fmap_cons. unfold row_lines, render.
  assert (Hhere : match prev with
                  | None => true
                  | Some p => bool_decide (p ∈ action_labels)
                  end = true).
  { destruct prev; [by apply bool_decide_eq_true|done]. }
  assert (Hmark : "Verified" ∉ action_labels).
  { intros H. by apply label_not_marker in H. }
  destruct (verified (who r)); cbn [app parse_from head]; rewrite Hhere.
  - rewrite (bool_decide_eq_true_2 (Some "Verified" = Some "Verified")) by done.
    rewrite (bool_decide_eq_false_2 (name (who r) ∈ action_labels)) by done.
    rewrite (bool_decide_eq_false_2 ("Verified" ∈ action_labels)) by done.
    simpl. f_equal. by apply IH.
  - rewrite (bool_decide_eq_false_2 (Some (button r) = Some "Verified")).
    2: { intros [= H]. by apply (label_not_marker (button r)). }
    rewrite (bool_decide_eq_false_2 (name (who r) ∈ action_labels)) by done.
    simpl. f_equal. by apply IH.
Qed.

Lemma blob_lines_free (rows : list row) :
  Forall plain_row rows → Forall (free_of nl) (blob_lines rows).
Proof.
  induction 1 as [|r rows (Hfree & Hname & Hbutton) _ IH]; [constructor|].
  rewrite blob_lines_cons. apply Forall_app. split; [|done].
  unfold row_lines. constructor; [done|]. apply Forall_app. split.
  - destruct (verified (who r)); repeat constructor; by intros [=].
  - repeat constructor. by apply label_free.
Qed.

End BlobFacts.

Module ParserExtras.
Import PyStr Parser ParserFacts Blob BlobFacts.

(** X1: the parse of any blob has at least one record, and its first
    record is the first line of the blob, tagged iff the second line is
    the marker. *)
Theorem clean_list_first_record (raw : string) :
  ∃ line lines rest,
    split nl raw = line :: lines
    ∧ clean_list raw
      = (if bool_decide (head lines = Some "Verified")
         then line +:+ " (Verified)" else line) :: rest.
Proof.
  rewrite clean_list_parse_from.
  pose proof (split_nonempty nl raw) as Hne.
  destruct (split nl raw) as [|line lines]; [done|].
  exists line, lines. eexists. split; [done|]. reflexivity.
Qed.

(** X2: the text of a panel that shows the rows [rows] (name, marker
    line when verified, button label), with names that hold no newline
    and are no button label, parses back to the records of these rows,
    in order. *)
Theorem clean_list_blob (rows : list row) :
  rows ≠ [] → Forall plain_row rows →
  clean_list (blob rows) = render <$> (who <$> rows)
  ∧ length (clean_list (blob rows)) = length rows.
Proof.
  intros Hne Hall.
  assert (Heq : clean_list (blob rows) = render <$> (who <$> rows)).
  { rewrite clean_list_parse_from. unfold blob. rewrite split_join.
    - by apply parse_rows.
    - destruct rows as [|r rows]; [done|]. by rewrite blob_lines_cons.
    - by apply blob_lines_free. }
  split; [done|]. by rewrite Heq, !length_fmap.
Qed.

Lemma clean_list_blob_witness :
  clean_list (blob [Row (Entity "ann" false) "Follow";
                    Row (Entity "bob" true) "Following";
                    Row (Entity "Verified" false) "Follow"])
  = ["ann"; "bob (Verified)"; "Verified"]
  ∧ length (clean_list (blob [Row (Entity "ann" false) "Follow";
                              Row (Entity "bob" true) "Following";
                              Row (Entity "Verified" false) "Follow"]))
    = 3%nat.
Proof.
  apply (clean_list_blob [Row (Entity "ann" false) "Follow";
                          Row (Entity "bob" true) "Following";
                          Row (Entity "Verified" false) "Follow"]).
  - discriminate.
  - repeat constructor; simpl; try (by intros [=]);
      unfold action_labels; rewrite ?elem_of_cons, ?elem_of_nil;
      try (by intros [[=]|[[=]|[]]]); auto.
Defined.

(** X3: a blob none of whose lines is a button label yields exactly one
    record, its first line. *)
Theorem clean_list_no_button (raw : string) :
  Forall (λ l, l ∉ action_labels) (split nl raw) →
  ∃ line lines,
    split nl raw = line :: lines
    ∧ clean_list raw
      = [if bool_decide (head lines = Some "Verified")
         then line +:+ " (Verified)" else line].
Proof.
  intros Hall. rewrite clean_list_parse_from.
  pose proof (split_nonempty nl raw) as Hne.
  destruct (split nl raw) as [|line lines]; [done|].
  inversion Hall as [|? ? Hl Hrest]; subst.
  exists line, lines. split; [done|]. simpl.
  by rewrite parse_from_no_button.
Qed.

Lemma clean_list_no_button_witness :
  ∃ line lines,
    split nl (join nl ["ann"; "Verified"; "bob"]) = line :: lines
    ∧ clean_list (join nl ["ann"; "Verified"; "bob"])
      = [if bool_decide (head lines = Some "Verified")
         then line +:+ " (Verified)" else line].
Proof.
  apply (clean_list_no_button (join nl ["ann"; "Verified"; "bob"])).
  repeat constructor; unfold action_labels;
    rewrite ?elem_of_cons, ?elem_of_nil; by intros [[=]|[[=]|[]]].
Defined.

End ParserExtras.

(** ** The materialiser, further *)

Module MaterializerMore.
Import PyStr Parser ParserFacts Blob BlobFacts.
Import Effects Materializer MaterializerFacts.

Lemma clean_list_count_pos raw : 1 ≤ count (clean_list raw).
Proof.
  rewrite clean_list_parse_from. pose proof (split_nonempty nl raw).
  destruct (split nl raw); [done|]. unfold count. simpl. lia.
Qed.

Lemma users_loop_post fuel num_users : ∀ list_of_users b l b',
  users_loop fuel num_users list_of_users b = Return l b' →
  num_users ≤ count l.
Proof.
  induction fuel as [|fuel IH]; intros l0 b l b'; simpl;
    destruct (Z.ltb_spec (count l0) num_users);
    try (intros [= <- <-]; lia); try done.
  unfold mbind, M_bind, bind.
  destruct (find_element panel_text b) as [text b1| |]; [|done..].
  apply IH.
Qed.

Lemma likes_loop_post fuel show_progress num_of_posts num_of_likes :
  ∀ list_of_users update_delay b l b',
  likes_loop fuel show_progress num_of_posts num_of_likes
    list_of_users update_delay b = Return l b' →
  num_of_likes ≤ count l ∨ count l + 1 = num_of_likes.
Proof.
  induction fuel as [|fuel IH]; intros l0 d b l b'; simpl;
    destruct (Z.ltb_spec (count l0) num_of_likes);
    try (intros [= <- <-]; lia); try done.
  unfold mbind, M_bind, bind.
  destruct (find_element panel_text b) as [text b1| |]; [|done..].
  unfold progress.
  destruct (show_progress && (num_of_posts =? 0)); [done|].
  unfold ret at 1.
  destruct (Qeq_bool _ 5); [|apply IH].
  destruct (Z.eqb_spec (count (clean_list text) + 1) num_of_likes); [|done].
  simpl. intros [= <- <-]. by right.
Qed.

End MaterializerMore.

Module MaterializerExtras.
Import PyStr Parser Effects Materializer MaterializerFacts MaterializerMore.
Import WalkerFacts Fixtures MoreFixtures.

(** X4: whenever [_get_list_of_users] returns, the list it returns has
    at least [num_users] entries: it never returns a short list. *)
Theorem get_list_of_users_reaches_target (fuel : nat) (num_users : Z)
    (b : browser) (l : list string) (b' : browser) :
  _get_list_of_users fuel num_users b = Return l b' →
  num_users ≤ Z.of_nat (length l).
Proof.
  unfold _get_list_of_users.
  intros (? & b1 & _ & H)%bind_inv.
  apply bind_inv in H as (text & b2 & _ & H).
  by apply users_loop_post in H.
Qed.

Lemma get_list_of_users_reaches_target_witness :
  2 ≤ Z.of_nat (length ["A"; "B"; "C"]).
Proof.
  apply (get_list_of_users_reaches_target 0 2 three_under_two
           ["A"; "B"; "C"] (ticks 2 three_under_two)).
  reflexivity.
Defined.

(** X5: whenever [_get_likes_from_post] returns, the list it returns
    has as many entries as the like label read at the start, or more, or
    exactly one fewer: it never returns a list short by two or more. *)
Theorem get_likes_from_post_tolerance (fuel : nat) (show_progress : bool)
    (i : nat) (num_of_posts : Z) (b : browser) (l : list string)
    (b' : browser) :
  _get_likes_from_post fuel show_progress i num_of_posts b = Return l b' →
  ∃ num_of_likes,
    like_label (page b (seen b)) = Some num_of_likes
    ∧ (num_of_likes ≤ Z.of_nat (length l)
       ∨ Z.of_nat (length l) + 1 = num_of_likes).
Proof.
  unfold _get_likes_from_post.
  intros (num & b1 & Hnum & H)%bind_inv.
  apply find_element_inv in Hnum as [Hnum ->].
  apply bind_inv in H as (? & b2 & _ & H).
  apply bind_inv in H as (text & b3 & _ & H).
  exists num. split; [done|]. by apply likes_loop_post in H.
Qed.

Lemma get_likes_from_post_tolerance_witness :
  ∃ num_of_likes,
    like_label (page four_of_five (seen four_of_five)) = Some num_of_likes
    ∧ (num_of_likes ≤ Z.of_nat (length ["A"; "B"; "C"; "D"])
       ∨ Z.of_nat (length ["A"; "B"; "C"; "D"]) + 1 = num_of_likes).
Proof.
  apply (get_likes_from_post_tolerance 10 false 0 1 four_of_five
           ["A"; "B"; "C"; "D"] (ticks 13 four_of_five)).
  by vm_compute.
Defined.

(** X6: while every poll shows more entries than the one before, the
    likers loop never raises the stall error: given as many polls as
    entries are missing, it returns a list that reaches the target. *)
Theorem likes_loop_growing (show_progress : bool) (num_of_posts : Z)
    (num_of_likes : Z) (fuel : nat) :
  ∀ (text : nat → string) (list_of_users : list string) (update_delay : Q)
    (b : browser),
  show_progress = false ∨ num_of_posts ≠ 0 →
  (∀ j, (j < fuel)%nat → panel_text (page b (seen b + j)) = Some (text j)) →
  (0 < fuel)%nat → count list_of_users < count (clean_list (text 0%nat)) →
  (∀ j, (S j < fuel)%nat →
     count (clean_list (text j)) < count (clean_list (text (S j)))) →
  (Z.to_nat (num_of_likes - count list_of_users) ≤ fuel)%nat →
  ∃ l b',
    likes_loop fuel show_progress num_of_posts num_of_likes
      list_of_users update_delay b = Return l b'
    ∧ num_of_likes ≤ count l.
Proof.
  induction fuel as [|fuel IH]; intros text l d b Hp Hpage Hpos H0 Hgrow Hfuel;
    [lia|].
  simpl. destruct (Z.ltb_spec (count l) num_of_likes) as [Hlt|Hge].
  2: { exists l, b. split; [done|lia]. }
  unfold mbind, M_bind, bind.
  pose proof (Hpage 0%nat ltac:(lia)) as Ht0. rewrite Nat.add_0_r in Ht0.
  rewrite (find_panel_text _ _ Ht0), progress_ok by done.
  rewrite (proj2 (Z.eqb_neq (count (clean_list (text 0%nat))) (count l)))
    by lia.
  change (Qeq_bool 0 5) with false. cbv iota.
  destruct fuel as [|fuel'].
  - simpl.
    destruct (Z.ltb_spec (count (clean_list (text 0%nat))) num_of_likes);
      [lia|]. eexists _, _. split; [done|lia].
  - apply (IH (λ j, text (S j))); try done; try lia.
    + intros j Hj. simpl. rewrite <- Nat.add_succ_r. apply Hpage. lia.
    + apply Hgrow. lia.
    + intros j Hj. apply Hgrow. lia.
Qed.

Lemma likes_loop_growing_witness :
  ∃ l b',
    likes_loop 3 false 1 3 [] 0 growing = Return l b' ∧ 3 ≤ count l.
Proof.
  apply (likes_loop_growing false 1 3 3 (λ j, join nl (grown j)) [] 0 growing).
  - left; reflexivity.
  - intros j Hj. reflexivity.
  - lia.
  - reflexivity.
  - intros j Hj. destruct j as [|[|j]]; [reflexivity|reflexivity|lia].
  - unfold count. simpl length. lia.
Defined.

(** X7: a poll that changes the count resets the idle time, whether the
    count went up or down: as long as every poll shows a count below the
    target that differs from the count before, the likers loop is still
    polling, and no stall is reported. *)
Theorem likes_loop_flicker (show_progress : bool) (num_of_posts : Z)
    (num_of_likes : Z) (fuel : nat) :
  ∀ (text : nat → string) (list_of_users : list string) (update_delay : Q)
    (b : browser),
  show_progress = false ∨ num_of_posts ≠ 0 →
  (∀ j, (j < fuel)%nat →
     panel_text (page b (seen b + j)) = Some (text j)
     ∧ count (clean_list (text j)) < num_of_likes) →
  count list_of_users < num_of_likes →
  ((0 < fuel)%nat → count (clean_list (text 0%nat)) ≠ count list_of_users) →
  (∀ j, (S j < fuel)%nat →
     count (clean_list (text (S j))) ≠ count (clean_list (text j))) →
  likes_loop fuel show_progress num_of_posts num_of_likes
    list_of_users update_delay b = OutOfFuel.
Proof.
  induction fuel as [|fuel IH]; intros text l d b Hp Hpage Hlt H0 Hch.
  { simpl. by rewrite (proj2 (Z.ltb_lt _ _) Hlt). }
  destruct (Hpage 0%nat ltac:(lia)) as [Ht0 Hc0]. rewrite Nat.add_0_r in Ht0.
  rewrite (likes_loop_reset fuel show_progress num_of_posts num_of_likes
             l d b (text 0%nat)); [|done|done|apply H0; lia|done].
  apply (IH (λ j, text (S j))); try done.
  - intros j Hj. simpl. rewrite <- Nat.add_succ_r. apply Hpage. lia.
  - intros Hf. apply Hch. lia.
  - intros j Hj. apply Hch. lia.
Qed.

Lemma likes_loop_flicker_witness :
  likes_loop 6 false 1 5 ["u"; "v"] 0 flickering = OutOfFuel.
Proof.
  apply (likes_loop_flicker false 1 5 6
           (λ j, if Nat.even j then "u" else join nl ["u"; "Follow"; "v"])
           ["u"; "v"] 0 flickering).
  - left; reflexivity.
  - intros j Hj.
    destruct j as [|[|[|[|[|[|j]]]]]]; try lia; split; reflexivity.
  - reflexivity.
  - intros _. by vm_compute.
  - intros j Hj.
    destruct j as [|[|[|[|[|j]]]]]; try lia; by vm_compute.
Defined.

(** X8: a target of at most one is met by any snapshot, since every
    parse has a record: [_get_list_of_users] then returns the parse of
    the first snapshot without polling, even for an empty panel. *)
Theorem get_list_of_users_small_target (fuel : nat) (num_users : Z)
    (b : browser) (text : string) :
  num_users ≤ 1 →
  users_dialog (page b (seen b)) = true →
  panel_text (page b (S (seen b))) = Some text →
  _get_list_of_users fuel num_users b = Return (clean_list text) (ticks 2 b).
Proof.
  intros Hn Hd Ht. unfold _get_list_of_users.
  rewrite (bind_eq _ _ b () (tick b))
    by (apply find_element_some; unfold present; by rewrite Hd).
  rewrite (bind_eq _ _ (tick b) text (ticks 2 b))
    by (by apply find_element_some).
  pose proof (clean_list_count_pos text).
  destruct fuel; simpl;
    by rewrite (proj2 (Z.ltb_ge (count (clean_list text)) num_users))
      by lia.
Qed.

Lemma get_list_of_users_small_target_witness :
  _get_list_of_users 0 1 (Browser (λ _, showing 1 "") 0)
  = Return (clean_list "") (ticks 2 (Browser (λ _, showing 1 "") 0)).
Proof.
  apply (get_list_of_users_small_target 0 1 (Browser (λ _, showing 1 "") 0) "").
  - lia.
  - reflexivity.
  - reflexivity.
Defined.

End MaterializerExtras.

(** ** The post walker, further *)

Module WalkerMore.
Import PyStr Parser Effects Materializer Data Walker.
Import ParserFacts MaterializerFacts WalkerFacts.

Lemma ids_new_posts (new_ids : list string) :
  id <$> (new_post <$> new_ids) = new_ids.
Proof. induction new_ids as [|x l IH]; [done|]. by rewrite !fmap_cons, IH. Qed.

Lemma initial_posts_from (links : list string) : ∀ acc : list post,
  foldl (λ (data_per_post : list post) href,
           match href_post_id href with
           | Some i => (data_per_post ++ [new_post i])%list
           | None => data_per_post
           end) acc links
  = (acc ++ (new_post <$> surfaced links))%list.
Proof.
  induction links as [|href links IH]; intros acc; simpl.
  - by rewrite app_nil_r.
  - rewrite IH. unfold surfaced. simpl.
    destruct (href_post_id href); [|done].
    by rewrite <- app_assoc.
Qed.

Lemma initial_posts_surfaced (links : list string) :
  initial_posts links = new_post <$> surfaced links.
Proof. apply (initial_posts_from links []). Qed.

Lemma scan_step_inv data_per_post i b dpp1 b1 :
  scan_step data_per_post i b = Return dpp1 b1 →
  ∃ p c new_ids,
    data_per_post !! i = Some p
    ∧ dpp1 = (alter (set_comments c) i data_per_post
              ++ (new_post <$> new_ids))%list.
Proof.
  unfold scan_step. intros (p & b2 & Hp & H)%bind_inv.
  unfold index in Hp. destruct (data_per_post !! i) as [p0|] eqn:Hi; [|done].
  injection Hp as -> ->.
  apply bind_inv in H as (? & b3 & _ & H).
  apply bind_inv in H as (items & b4 & _ & H).
  apply bind_inv in H as (item & b5 & _ & H).
  exists p, (hd "" (split "c" item)).
  destruct ((Z.of_nat i + 1) mod 12 =? 0).
  - apply bind_inv in H as (links & b6 & _ & H).
    unfold mret, M_ret, ret in H. injection H as <- <-.
    destruct (refresh_new links
                (alter (set_comments (hd "" (split "c" item))) i data_per_post))
      as (new_ids & Heq & _).
    by exists new_ids.
  - unfold mret, M_ret, ret in H. injection H as <- <-.
    exists []. by rewrite app_nil_r.
Qed.

Lemma scan_loop_inv n : ∀ a (dpp : list post) b dpp' b',
  for_each (seq a n) scan_step dpp b = Return dpp' b' →
  (id <$> dpp) `prefix_of` (id <$> dpp')
  ∧ (∀ j p, dpp !! j = Some p → is_Some (comments p) →
       ∃ p', dpp' !! j = Some p' ∧ is_Some (comments p'))
  ∧ (∀ j, (a ≤ j < a + n)%nat →
       ∃ p', dpp' !! j = Some p' ∧ is_Some (comments p')).
Proof.
  induction n as [|n IH]; intros a dpp b dpp' b'; simpl.
  - intros [= -> ->]. split; [done|]. split; [eauto|]. intros j Hj. lia.
  - intros (dpp1 & b1 & Hstep & Hrest)%bind_inv.
    apply scan_step_inv in Hstep as (p & c & new_ids & Hp & ->).
    apply IH in Hrest as (Hpre & Hkeep & Hdone).
    assert (Hstay : ∀ j q, dpp !! j = Some q →
              ∃ q', (alter (set_comments c) a dpp
                     ++ (new_post <$> new_ids))%list !! j = Some q'
                    ∧ (is_Some (comments q) ∨ j = a → is_Some (comments q'))).
    { intros j q Hq. rewrite lookup_app_l
        by (rewrite length_alter; by eapply lookup_lt_Some).
      destruct (decide (a = j)) as [->|Hne].
      - rewrite list_lookup_alter_eq, Hq. eexists. split; [done|].
        intros _. by eexists.
      - rewrite list_lookup_alter_ne, Hq by done. eexists. split; [done|].
        intros [?|?]; [done|congruence]. }
    split; [|split].
    + etrans; [|exact Hpre]. rewrite fmap_app, alter_set_comments_ids.
      by apply prefix_app_r.
    + intros j q Hq Hc. destruct (Hstay j q Hq) as (q' & Hq' & Hc').
      apply (Hkeep j q' Hq'). auto.
    + intros j Hj. destruct (decide (j = a)) as [->|Hne].
      * destruct (Hstay a p Hp) as (q' & Hq' & Hc').
        apply (Hkeep a q' Hq'). auto.
      * apply Hdone. lia.
Qed.

Lemma like_loop_inv fuel show_progress num_of_posts n :
  ∀ a (dpp : list post) b dpp' b',
  for_each (seq a n) (like_step fuel show_progress num_of_posts) dpp b
    = Return dpp' b' →
  length dpp' = length dpp
  ∧ ∀ j p, dpp !! j = Some p →
      ((a ≤ j < a + n)%nat → ∃ users, dpp' !! j = Some (set_likes users p))
      ∧ (¬ (a ≤ j < a + n)%nat → dpp' !! j = Some p).
Proof.
  induction n as [|n IH]; intros a dpp b dpp' b'; simpl.
  - intros [= -> ->]. split; [done|]. intros j p Hp. split; [lia|done].
  - intros (dpp1 & b1 & Hstep & Hrest)%bind_inv.
    apply like_step_alters in Hstep as [users ->].
    apply IH in Hrest as [Hlen Hrest]. rewrite length_alter in Hlen.
    split; [done|]. intros j p Hp.
    destruct (decide (j = a)) as [->|Hne].
    + destruct (Hrest a (set_likes users p)) as [_ Hout].
      { by rewrite list_lookup_alter_eq, Hp. }
      split; [|lia]. intros _. exists users. apply Hout. lia.
    + destruct (Hrest j p) as [Hin Hout].
      { by rewrite list_lookup_alter_ne. }
      split; intros Hj; [apply Hin|apply Hout]; lia.
Qed.

End WalkerMore.

Module WalkerExtras.
Import PyStr Parser Effects Materializer Data Walker.
Import MaterializerFacts WalkerFacts WalkerMore Fixtures.

(** X9: reading the same page a second time adds nothing: a refresh
    with the links of a page, done twice, gives the list of the first
    refresh. *)
Theorem refresh_twice (data_per_post : list post) (links : list string) :
  refresh (refresh data_per_post links) links = refresh data_per_post links.
Proof.
  destruct (refresh_new links data_per_post) as (new1 & Heq1 & _ & Hin1 & _).
  destruct (refresh_new links (refresh data_per_post links))
    as (new2 & Heq2 & _ & Hin2 & _).
  rewrite Heq2. destruct new2 as [|x new2]; [by rewrite app_nil_r|].
  exfalso. destruct (proj1 (Hin2 x)) as [Hx Hnot]; [by left|].
  apply Hnot. rewrite Heq1, fmap_app, ids_new_posts, elem_of_app.
  destruct (decide (x ∈ id <$> data_per_post)); [by left|].
  right. by apply Hin1.
Qed.

(** X10: a refresh never records an id twice: when the ids of the list
    are pairwise distinct, so are the ids after the refresh. *)
Theorem refresh_keeps_ids_distinct (data_per_post : list post)
    (links : list string) :
  NoDup (id <$> data_per_post) →
  NoDup (id <$> refresh data_per_post links).
Proof.
  intros Hnd.
  destruct (refresh_new links data_per_post) as (new & Heq & Hnew & Hin & _).
  rewrite Heq, fmap_app, ids_new_posts. apply NoDup_app.
  split; [done|]. split; [|done].
  intros x Hx Hx'. by apply Hin in Hx' as [_ ?].
Qed.

Lemma refresh_keeps_ids_distinct_witness :
  NoDup (id <$> refresh thirteen
                  (hrefs (thirteen_ids ++ ["p14"; "p15"; "p14"]))).
Proof.
  apply (refresh_keeps_ids_distinct thirteen
           (hrefs (thirteen_ids ++ ["p14"; "p15"; "p14"]))).
  apply (bool_decide_unpack _). by vm_compute.
Defined.

Lemma href_post_id_head (x : string) :
  href_post_id ("/p/" +:+ x) = head (split "/" x).
Proof.
  assert (Hstart : startswith "/p/" ("/p/" +:+ x) = true).
  { unfold startswith. simpl. by destruct x. }
  unfold href_post_id. rewrite Hstart.
  change ("/p/" +:+ x) with (String "/" (String "p" (String "/" x))).
  cbn [split Ascii.eqb Bool.eqb].
  pose proof (ParserFacts.split_nonempty "/" x).
  by destruct (split "/" x).
Qed.

(** X11: the first scan of the page turns every link into at most one
    entry, in page order: a link that does not start with [/p/] gives
    none; a link [/p/<id>] or [/p/<id>/...] gives an entry whose id is
    that third component of the path.  No id is left out for being there
    already. *)
Theorem initial_posts_post_links (links : list string)
    (i tail other : string) :
  free_of "/" i → startswith "/p/" other = false →
  initial_posts (other :: links) = initial_posts links
  ∧ initial_posts (("/p/" +:+ i +:+ "/" +:+ tail) :: links)
    = new_post i :: initial_posts links
  ∧ initial_posts (("/p/" +:+ i) :: links) = new_post i :: initial_posts links
  ∧ initial_posts (("/p/" +:+ i) :: ("/p/" +:+ i) :: links)
    = new_post i :: new_post i :: initial_posts links.
Proof.
  intros Hfree Hother.
  assert (Hcons : ∀ href rest,
            initial_posts (href :: rest)
            = match href_post_id href with
              | Some x => new_post x :: initial_posts rest
              | None => initial_posts rest
              end).
  { intros href rest. unfold initial_posts.
    rewrite !(initial_posts_from _ []). unfold surfaced. simpl.
    by destruct (href_post_id href). }
  assert (Hshort : href_post_id ("/p/" +:+ i) = Some i).
  { by rewrite href_post_id_head, (ParserFacts.split_free "/" i). }
  assert (Hlong : href_post_id ("/p/" +:+ i +:+ "/" +:+ tail) = Some i).
  { rewrite href_post_id_head.
    change ("/" +:+ tail) with (String "/" tail).
    by rewrite ParserFacts.split_append. }
  assert (Hnone : href_post_id other = None).
  { unfold href_post_id. by rewrite Hother. }
  rewrite !Hcons, Hshort, Hlong, Hnone. done.
Qed.

Lemma initial_posts_post_links_witness :
  initial_posts ("/explore/" :: hrefs ["p02"]) = initial_posts (hrefs ["p02"])
  ∧ initial_posts (("/p/" +:+ "p01" +:+ "/" +:+ "?taken-by=ann")
                     :: hrefs ["p02"])
    = new_post "p01" :: initial_posts (hrefs ["p02"])
  ∧ initial_posts (("/p/" +:+ "p01") :: hrefs ["p02"])
    = new_post "p01" :: initial_posts (hrefs ["p02"])
  ∧ initial_posts (("/p/" +:+ "p01") :: ("/p/" +:+ "p01") :: hrefs ["p02"])
    = new_post "p01" :: new_post "p01" :: initial_posts (hrefs ["p02"]).
Proof.
  apply (initial_posts_post_links (hrefs ["p02"]) "p01" "?taken-by=ann"
           "/explore/").
  - simpl. repeat split; discriminate.
  - reflexivity.
Defined.

(** X12: when the label counts at least one post and the page shows no
    post link, [collect_posts_data] raises [IndexError] right after
    reading the page. *)
Theorem collect_posts_data_label_without_links (fuel : nat) (self : igaccess)
    (username : string) (b : browser) :
  0 < posts_label (page b (seen b)) →
  surfaced (page_links (page b (seen b))) = [] →
  collect_posts_data fuel self username b = Raise IndexError (tick b).
Proof.
  intros Hn Hnone.
  unfold collect_posts_data, walk_posts, mbind, M_bind, bind, observe.
  cbn [page seen]. fold (tick b).
  rewrite initial_posts_surfaced, Hnone. simpl.
  unfold scan_posts.
  destruct (Z.to_nat (posts_label (page b (seen b)))) as [|n] eqn:E; [lia|].
  done.
Qed.

Lemma collect_posts_data_label_without_links_witness :
  collect_posts_data 0 fresh "user"
    (Browser (λ _, Dom None None false None None false false 3
                     ["/explore/"] [] (λ _, true)) 0)
  = Raise IndexError
      (tick (Browser (λ _, Dom None None false None None false false 3
                             ["/explore/"] [] (λ _, true)) 0)).
Proof.
  apply (collect_posts_data_label_without_links 0 fresh "user"
           (Browser (λ _, Dom None None false None None false false 3
                            ["/explore/"] [] (λ _, true)) 0)).
  - reflexivity.
  - reflexivity.
Defined.

(** X13: for a profile without posts (a label of zero, no post link on
    the page), [collect_posts_data] reads the page once and stores an
    empty post list, a total of 0 and a mean of 0, whatever else the page
    shows. *)
Theorem collect_posts_data_no_posts (fuel : nat) (self : igaccess)
    (username : string) (b : browser) :
  posts_label (page b (seen b)) ≤ 0 →
  surfaced (page_links (page b (seen b))) = [] →
  collect_posts_data fuel self username b
  = Return
      (set_profile self username
         (<["avg_likes" := VInt 0]>
            (<["total_likes" := VInt 0]>
               (<["data_per_post" := VPosts []]>
                  (profile_of self username))))) (tick b).
Proof.
  intros Hn Hnone.
  unfold collect_posts_data, walk_posts, mbind, M_bind, bind, observe.
  cbn [page seen]. fold (tick b).
  rewrite initial_posts_surfaced, Hnone. simpl.
  unfold scan_posts.
  by replace (Z.to_nat (posts_label (page b (seen b)))) with 0%nat by lia.
Qed.

Lemma collect_posts_data_no_posts_witness :
  collect_posts_data 0 fresh "user" no_posts
  = Return
      (set_profile fresh "user"
         (<["avg_likes" := VInt 0]>
            (<["total_likes" := VInt 0]>
               (<["data_per_post" := VPosts []]>
                  (profile_of fresh "user"))))) (tick no_posts).
Proof.
  apply (collect_posts_data_no_posts 0 fresh "user" no_posts).
  - by vm_compute.
  - reflexivity.
Defined.

(** X14: the like walk neither adds, drops nor reorders posts: when
    [_get_like_data] returns, every post is where it was, with the same id
    and comments, and carries a list [liked_by] and its length as
    [likes]. *)
Theorem get_like_data_keeps_posts (fuel : nat) (show_progress : bool)
    (num_of_posts : Z) (data_per_post : list post) (b : browser)
    (walked : list post) (b' : browser) :
  _get_like_data fuel show_progress num_of_posts data_per_post b
    = Return walked b' →
  length walked = length data_per_post
  ∧ ∀ j p, data_per_post !! j = Some p →
      ∃ p' users,
        walked !! j = Some p'
        ∧ id p' = id p ∧ comments p' = comments p
        ∧ liked_by p' = Some users
        ∧ likes p' = Some (Z.of_nat (length users)).
Proof.
  unfold _get_like_data. intros (? & b1 & _ & H)%bind_inv.
  apply like_loop_inv in H as [Hlen H]. split; [done|].
  intros j p Hp. destruct (H j p Hp) as [Hin _].
  destruct Hin as [users Hj].
  { apply lookup_lt_Some in Hp. lia. }
  by exists (set_likes users p), users.
Qed.

Lemma get_like_data_keeps_posts_witness :
  length [Post "a" None (Some 1) (Some ["u1"]);
          Post "b" None (Some 1) (Some ["u1"])]
  = length [new_post "a"; new_post "b"]
  ∧ ∀ j p, [new_post "a"; new_post "b"] !! j = Some p →
      ∃ p' users,
        [Post "a" None (Some 1) (Some ["u1"]);
         Post "b" None (Some 1) (Some ["u1"])] !! j = Some p'
        ∧ id p' = id p ∧ comments p' = comments p
        ∧ liked_by p' = Some users
        ∧ likes p' = Some (Z.of_nat (length users)).
Proof.
  apply (get_like_data_keeps_posts 0 false 2 [new_post "a"; new_post "b"]
           last_post _ (ticks 9 last_post)).
  by vm_compute.
Defined.

(** X15: when the scan of the post ids returns, the ids recorded before
    it are a prefix of the ids recorded after it, and each of the first
    [num_of_posts] entries exists and has its comments. *)
Theorem scan_posts_records (num_of_posts : Z) (data_per_post : list post)
    (b : browser) (scanned : list post) (b' : browser) :
  scan_posts num_of_posts data_per_post b = Return scanned b' →
  (id <$> data_per_post) `prefix_of` (id <$> scanned)
  ∧ ∀ j, (Z.of_nat j < num_of_posts) →
      ∃ p, scanned !! j = Some p ∧ is_Some (comments p).
Proof.
  unfold scan_posts. intros (Hpre & _ & Hdone)%scan_loop_inv.
  split; [done|]. intros j Hj. apply Hdone. lia.
Qed.

Lemma scan_posts_records_witness :
  (id <$> [new_post "a"; new_post "b"])
    `prefix_of` (id <$> [Post "a" (Some "3 ") None None;
                         Post "b" (Some "3 ") None None])
  ∧ ∀ j, (Z.of_nat j < 2) →
      ∃ p, [Post "a" (Some "3 ") None None;
            Post "b" (Some "3 ") None None] !! j = Some p
           ∧ is_Some (comments p).
Proof.
  apply (scan_posts_records 2 [new_post "a"; new_post "b"] two_posts _
           (ticks 4 two_posts)).
  by vm_compute.
Defined.

End WalkerExtras.

(** ** Follow lists, further *)

Module FollowExtras.
Import PyStr Parser Effects Materializer Data Follow Walker.
Import MaterializerFacts WalkerFacts Fixtures.

(** X16: for a profile that shows neither the followers link nor the
    following link, [collect_follow_data] looks at the page twice and
    stores two empty lists and two counts of zero, whatever the fuel. *)
Theorem collect_follow_data_no_links (fuel : nat) (self : igaccess)
    (username : string) (b : browser) :
  followers_title (page b (seen b)) = None →
  following_text (page b (S (seen b))) = None →
  collect_follow_data fuel self username b
  = Return
      (set_profile self username
         (<["following" := VNames []]>
            (<["followers" := VNames []]>
               (<["num_following" := VInt 0]>
                  (<["num_followers" := VInt 0]>
                     (profile_of self username)))))) (ticks 2 b).
Proof.
  intros Hers Hing.
  unfold collect_follow_data, _get_followers, _get_following.
  unfold mbind, M_bind, bind, try_except, find_element, observe.
  unfold mbind, M_bind, bind. cbn [page seen].
  rewrite Hers. simpl. by rewrite Hing.
Qed.

Lemma collect_follow_data_no_links_witness :
  collect_follow_data 0 fresh "user" no_posts
  = Return
      (set_profile fresh "user"
         (<["following" := VNames []]>
            (<["followers" := VNames []]>
               (<["num_following" := VInt 0]>
                  (<["num_followers" := VInt 0]>
                     (profile_of fresh "user")))))) (ticks 2 no_posts).
Proof.
  apply (collect_follow_data_no_links 0 fresh "user" no_posts).
  - reflexivity.
  - reflexivity.
Defined.

(** X17: [collect_follow_data] touches nothing but the four follow keys
    of the profile of [username]: the profiles of other users, the other
    keys of this profile and [show_progress] are as before. *)
Theorem collect_follow_data_frame (fuel : nat) (self : igaccess)
    (username : string) (b : browser) (self' : igaccess) (b' : browser) :
  collect_follow_data fuel self username b = Return self' b' →
  show_progress self' = show_progress self
  ∧ (∀ other, other ≠ username → data self' !! other = data self !! other)
  ∧ (∀ key, key ∉ ["num_followers"; "num_following"; "followers"; "following"] →
       profile_of self' username !! key = profile_of self username !! key).
Proof.
  unfold collect_follow_data.
  intros (followers & b1 & _ & H)%bind_inv.
  apply bind_inv in H as (following & b2 & _ & H).
  unfold mret, M_ret, ret in H. injection H as <- <-.
  split; [done|]. split.
  - intros other Hne. unfold set_profile. simpl.
    by rewrite lookup_insert_ne.
  - intros key Hkey. rewrite !not_elem_of_cons in Hkey.
    destruct Hkey as (? & ? & ? & ? & _).
    unfold profile_of at 1, set_profile. cbn [data].
    rewrite lookup_insert_eq. simpl.
    by rewrite !lookup_insert_ne.
Qed.

Lemma collect_follow_data_frame_witness :
  show_progress (set_profile collected "ann"
                   (<["following" := VNames []]>
                      (<["followers" := VNames []]>
                         (<["num_following" := VInt 0]>
                            (<["num_followers" := VInt 0]>
                               (profile_of collected "ann"))))))
  = show_progress collected
  ∧ (∀ other, other ≠ "ann" →
       data (set_profile collected "ann"
               (<["following" := VNames []]>
                  (<["followers" := VNames []]>
                     (<["num_following" := VInt 0]>
                        (<["num_followers" := VInt 0]>
                           (profile_of collected "ann")))))) !! other
       = data collected !! other)
  ∧ (∀ key, key ∉ ["num_followers"; "num_following"; "followers"; "following"] →
       profile_of (set_profile collected "ann"
                     (<["following" := VNames []]>
                        (<["followers" := VNames []]>
                           (<["num_following" := VInt 0]>
                              (<["num_followers" := VInt 0]>
                                 (profile_of collected "ann")))))) "ann" !! key
       = profile_of collected "ann" !! key).
Proof.
  apply (collect_follow_data_frame 0 collected "ann" no_posts _
           (ticks 2 no_posts)).
  reflexivity.
Defined.

Lemma profile_of_set_profile (self : igaccess) (username : string)
    (p : gmap string value) :
  profile_of (set_profile self username p) username = p.
Proof.
  unfold profile_of, set_profile. cbn [data]. by rewrite lookup_insert_eq.
Qed.

(** X18: the two collectors do not undo each other: after
    [collect_follow_data] and then [collect_posts_data] for the same user,
    the profile still holds, under every key but the three post keys, what
    [collect_follow_data] left there: the lists that [_get_followers] and
    [_get_following] returned and their lengths; and it holds the post
    data, the total and the mean. *)
Theorem follow_then_posts (fuel : nat) (self : igaccess) (username : string)
    (b : browser) (self1 : igaccess) (b1 : browser) (self2 : igaccess)
    (b2 : browser) :
  collect_follow_data fuel self username b = Return self1 b1 →
  collect_posts_data fuel self1 username b1 = Return self2 b2 →
  ∃ followers following b0 p1 p,
    _get_followers fuel b = Return followers b0
    ∧ _get_following fuel b0 = Return following b1
    ∧ data self1 !! username = Some p1
    ∧ data self2 !! username = Some p
    ∧ (∀ key, key ∉ ["data_per_post"; "total_likes"; "avg_likes"] →
         p !! key = p1 !! key)
    ∧ p !! "followers" = Some (VNames followers)
    ∧ p !! "num_followers" = Some (VInt (Z.of_nat (length followers)))
    ∧ p !! "following" = Some (VNames following)
    ∧ p !! "num_following" = Some (VInt (Z.of_nat (length following)))
    ∧ is_Some (p !! "data_per_post")
    ∧ is_Some (p !! "total_likes")
    ∧ is_Some (p !! "avg_likes").
Proof.
  unfold collect_follow_data, collect_posts_data.
  intros (followers & b3 & Hers & H)%bind_inv.
  apply bind_inv in H as (following & b4 & Hing & H).
  unfold mret, M_ret, ret in H. injection H as <- <-.
  intros (dpp & b5 & _ & H)%bind_inv.
  apply bind_inv in H as (xs & b6 & _ & H).
  apply bind_inv in H as (avg & b7 & _ & H).
  unfold mret, M_ret, ret in H. injection H as <- <-.
  rewrite profile_of_set_profile.
  exists followers, following, b3. eexists _, _.
  split; [done|]. split; [done|].
  split; [apply lookup_insert_eq|].
  split; [unfold set_profile at 1; cbn [data]; apply lookup_insert_eq|].
  split.
  - intros key Hkey. rewrite !not_elem_of_cons in Hkey.
    destruct Hkey as (? & ? & ? & _).
    by do 3 (rewrite lookup_insert_ne by done).
  - unfold count.
    do 6 (split;
            [repeat (rewrite lookup_insert_ne by done);
             rewrite lookup_insert_eq; by eauto|]).
    rewrite lookup_insert_eq. by eauto.
Qed.

Lemma follow_then_posts_witness :
  ∃ self1 b1 self2 b2 p,
    collect_follow_data 0 fresh "user" three_under_two = Return self1 b1
    ∧ collect_posts_data 0 self1 "user" b1 = Return self2 b2
    ∧ data self2 !! "user" = Some p
    ∧ p !! "followers" = Some (VNames ["A"; "B"; "C"])
    ∧ p !! "num_followers" = Some (VInt 3)
    ∧ is_Some (p !! "data_per_post").
Proof.
  eexists _, _, _, _.
  destruct (follow_then_posts 0 fresh "user" three_under_two _ _ _ _
              eq_refl eq_refl)
    as (followers & following & b0 & p1 & p & Hers & _ & _ & Hp & _
        & Hf & Hn & _ & _ & Hd & _).
  exists p. split; [reflexivity|]. split; [reflexivity|].
  vm_compute in Hers. injection Hers as <- _.
  split; [exact Hp|]. split; [exact Hf|]. split; [exact Hn|exact Hd].
Defined.

End FollowExtras.

(** ** The follow analysis *)

Module DiffFacts.
Import PyStr Parser Effects Data Diff.

Lemma not_in_names (la lb : list string) :
  not_in (VNames la) (VNames lb) = inl (VNames (filter (λ user, user ∉ lb) la)).
Proof. by destruct la. Qed.

Lemma follow_diff_names (p : gmap string value) followers following :
  p !! "followers" = Some (VNames followers) →
  p !! "following" = Some (VNames following) →
  follow_diff p = inl (analysed followers following p).
Proof.
  intros Hers Hing. unfold follow_diff. rewrite Hers, Hing.
  by rewrite !not_in_names.
Qed.

Lemma follow_diff_error (p : gmap string value) e :
  names_only p → follow_diff p = inr e →
  e = KeyError ∧ (p !! "followers" = None ∨ p !! "following" = None).
Proof.
  intros Hnames. unfold follow_diff.
  destruct (p !! "followers") as [v1|] eqn:H1; [|intros [= <-]; auto].
  destruct (p !! "following") as [v2|] eqn:H2; [|intros [= <-]; auto].
  destruct (Hnames "followers" v1) as [l1 ->]; [auto|done|].
  destruct (Hnames "following" v2) as [l2 ->]; [auto|done|].
  by rewrite !not_in_names.
Qed.

(** The loop over [self.data], when no profile fails. *)
Lemma fold_diff_ok (m0 : gmap string (gmap string value))
    (d : gmap string (gmap string value)) :
  (∀ u p, d !! u = Some p → ∃ p', follow_diff p = inl p') →
  ∃ m, map_fold diff_step (inl m0) d = inl m
    ∧ ∀ u, m !! u = match d !! u with
                    | Some p => match follow_diff p with
                                | inl p' => Some p'
                                | inr _ => None
                                end
                    | None => m0 !! u
                    end.
Proof.
  apply (map_fold_weak_ind
           (λ r (d : gmap string (gmap string value)),
              (∀ u p, d !! u = Some p → ∃ p', follow_diff p = inl p') →
              ∃ m, r = inl m
                ∧ ∀ u, m !! u = match d !! u with
                                | Some p => match follow_diff p with
                                            | inl p' => Some p'
                                            | inr _ => None
                                            end
                                | None => m0 !! u
                                end)).
  - intros _. exists m0. split; [done|]. intros u. by rewrite lookup_empty.
  - intros k p d' r Hk IH Hall.
    destruct IH as (m & -> & Hm).
    { intros u q Hq. apply (Hall u q).
      rewrite lookup_insert_ne; [done|]. intros ->. congruence. }
    destruct (Hall k p) as [p' Hp']; [by rewrite lookup_insert_eq|].
    exists (<[k := p']> m). split; [simpl; by rewrite Hp'|].
    intros u. destruct (decide (k = u)) as [->|Hne].
    + by rewrite !lookup_insert_eq, Hp'.
    + by rewrite !lookup_insert_ne.
Qed.

(** The loop over [self.data], when some profile fails. *)
Lemma fold_diff_fail (m0 : gmap string (gmap string value))
    (d : gmap string (gmap string value)) :
  (∀ u p e, d !! u = Some p → follow_diff p = inr e → e = KeyError) →
  (∃ u p e, d !! u = Some p ∧ follow_diff p = inr e) →
  map_fold diff_step (inl m0) d = inr KeyError.
Proof.
  apply (map_fold_weak_ind
           (λ r (d : gmap string (gmap string value)),
              (∀ u p e, d !! u = Some p → follow_diff p = inr e → e = KeyError) →
              (∀ e, r = inr e → e = KeyError)
              ∧ ((∃ u p e, d !! u = Some p ∧ follow_diff p = inr e) →
                 r = inr KeyError))).
  - intros _. split; [done|]. intros (u & p & e & Hu & _).
    by rewrite lookup_empty in Hu.
  - intros k p d' r Hk IH Hall.
    destruct IH as [IH1 IH2].
    { intros u q e Hq. apply (Hall u q).
      rewrite lookup_insert_ne; [done|]. intros ->. congruence. }
    assert (Hstep : ∀ e, diff_step k p r = inr e → e = KeyError).
    { intros e. unfold diff_step. destruct r as [m|e']; [|intros [= <-]; auto].
      destruct (follow_diff p) as [p'|e'] eqn:Hp; [done|].
      intros [= <-]. apply (Hall k p); [by rewrite lookup_insert_eq|done]. }
    split; [done|].
    intros (u & q & e & Hq & He). destruct (decide (k = u)) as [->|Hne].
    + rewrite lookup_insert_eq in Hq. injection Hq as ->.
      unfold diff_step. destruct r as [m|e'].
      * rewrite He. f_equal. eapply Hall; [|done]. by rewrite lookup_insert_eq.
      * f_equal. auto.
    + rewrite lookup_insert_ne in Hq by done.
      rewrite IH2 by eauto. done.
Qed.

Lemma contains_append (needle a b : string) :
  contains needle b = true → contains needle (a +:+ b) = true.
Proof.
  intros H. induction a as [|c a IH]; [done|].
  simpl. rewrite IH. apply orb_true_r.
Qed.

End DiffFacts.

Module DiffExtras.
Import PyStr Parser ParserFacts Effects Data Walker Diff DiffFacts.
Import Fixtures MoreFixtures.

(** X19: when every profile of [self.data] holds lists of names under
    [followers] and [following], [collect_follow_diff] raises nothing and
    adds to each profile the four derived lists: the following that are
    no followers, the followers that are not followed, and the names of
    each list that contain [(Verified)], all in the order of the list they
    are taken from; nothing else changes. *)
Theorem collect_follow_diff_names (self : igaccess) :
  (∀ u p, data self !! u = Some p →
     ∃ followers following,
       p !! "followers" = Some (VNames followers)
       ∧ p !! "following" = Some (VNames following)) →
  ∃ self',
    collect_follow_diff self = inl self'
    ∧ show_progress self' = show_progress self
    ∧ (∀ u, data self !! u = None → data self' !! u = None)
    ∧ (∀ u p followers following,
         data self !! u = Some p →
         p !! "followers" = Some (VNames followers) →
         p !! "following" = Some (VNames following) →
         data self' !! u = Some (analysed followers following p)).
Proof.
  intros Hall.
  destruct (fold_diff_ok (data self) (data self)) as (m & Hm & Hlook).
  { intros u p Hp. destruct (Hall u p Hp) as (l1 & l2 & H1 & H2).
    eexists. by apply follow_diff_names. }
  exists (IGAccess (show_progress self) m).
  unfold collect_follow_diff. rewrite Hm.
  split; [done|]. split; [done|]. split.
  - intros u Hu. simpl. by rewrite Hlook, Hu.
  - intros u p l1 l2 Hp H1 H2. simpl.
    by rewrite Hlook, Hp, (follow_diff_names p l1 l2).
Qed.

Lemma collect_follow_diff_names_witness :
  ∃ self',
    collect_follow_diff ann_lists = inl self'
    ∧ show_progress self' = show_progress ann_lists
    ∧ (∀ u, data ann_lists !! u = None → data self' !! u = None)
    ∧ (∀ u p followers following,
         data ann_lists !! u = Some p →
         p !! "followers" = Some (VNames followers) →
         p !! "following" = Some (VNames following) →
         data self' !! u = Some (analysed followers following p)).
Proof.
  apply (collect_follow_diff_names ann_lists).
  intros u p Hp. unfold ann_lists in Hp. cbn [data] in Hp.
  apply lookup_singleton_Some in Hp as [_ <-].
  exists ["bob"; "cat (Verified)"], ["cat (Verified)"; "dan"].
  split; reflexivity.
Defined.

(** X20: [collect_follow_diff] needs both follow lists of every
    profile: when some profile of [self.data] lacks [followers] or
    [following] (one that only [collect_posts_data] filled, say), it
    raises [KeyError]. *)
Theorem collect_follow_diff_missing_list (self : igaccess) (u : string)
    (p : gmap string value) :
  (∀ u' p', data self !! u' = Some p' → names_only p') →
  data self !! u = Some p →
  p !! "followers" = None ∨ p !! "following" = None →
  collect_follow_diff self = inr KeyError.
Proof.
  intros Hnames Hu Hmiss. unfold collect_follow_diff.
  rewrite (fold_diff_fail (data self) (data self)); [done| |].
  - intros u' p' e Hp' He.
    by destruct (follow_diff_error p' e (Hnames u' p' Hp') He).
  - exists u, p, KeyError. split; [done|]. unfold follow_diff.
    destruct Hmiss as [->| Hing]; [done|].
    destruct (p !! "followers"); [|done]. by rewrite Hing.
Qed.

Lemma collect_follow_diff_missing_list_witness :
  collect_follow_diff posts_only = inr KeyError.
Proof.
  apply (collect_follow_diff_missing_list posts_only "user"
           (<["avg_likes" := VInt 0]>
              (<["total_likes" := VInt 0]>
                 (<["data_per_post" := VPosts []]> ∅)))).
  - intros u' p' Hp' key v Hkey Hv. unfold posts_only in Hp'.
    cbn [data] in Hp'. apply lookup_singleton_Some in Hp' as [_ <-].
    destruct Hkey as [->| ->]; by vm_compute in Hv.
  - reflexivity.
  - left. reflexivity.
Defined.

(** X21: in the analysis of two lists of names, a name is in
    [not_followed_back] iff it is followed and is no follower, in
    [not_following_back] iff it is a follower and is not followed; no name
    is in both, and each list keeps the order of the list it is taken
    from. *)
Theorem follow_diff_membership (p : gmap string value)
    (followers following : list string) :
  p !! "followers" = Some (VNames followers) →
  p !! "following" = Some (VNames following) →
  ∃ p' not_followed_back not_following_back,
    follow_diff p = inl p'
    ∧ p' !! "not_followed_back" = Some (VNames not_followed_back)
    ∧ p' !! "not_following_back" = Some (VNames not_following_back)
    ∧ (∀ x, x ∈ not_followed_back ↔ x ∈ following ∧ x ∉ followers)
    ∧ (∀ x, x ∈ not_following_back ↔ x ∈ followers ∧ x ∉ following)
    ∧ (∀ x, ¬ (x ∈ not_followed_back ∧ x ∈ not_following_back))
    ∧ sublist not_followed_back following
    ∧ sublist not_following_back followers.
Proof.
  intros Hers Hing.
  exists (analysed followers following p),
    (filter (λ user, user ∉ followers) following),
    (filter (λ user, user ∉ following) followers).
  split; [by apply follow_diff_names|].
  unfold analysed. split; [by simplify_map_eq|]. split; [by simplify_map_eq|].
  split; [|split; [|split; [|split]]].
  - intros x. rewrite list_elem_of_filter. tauto.
  - intros x. rewrite list_elem_of_filter. tauto.
  - intros x. rewrite !list_elem_of_filter. tauto.
  - apply sublist_filter.
  - apply sublist_filter.
Qed.

Lemma follow_diff_membership_witness :
  ∃ p' not_followed_back not_following_back,
    follow_diff {[ "followers" := VNames ["bob"; "cat"];
                   "following" := VNames ["cat"; "dan"] ]} = inl p'
    ∧ p' !! "not_followed_back" = Some (VNames not_followed_back)
    ∧ p' !! "not_following_back" = Some (VNames not_following_back)
    ∧ (∀ x, x ∈ not_followed_back ↔ x ∈ ["cat"; "dan"] ∧ x ∉ ["bob"; "cat"])
    ∧ (∀ x, x ∈ not_following_back ↔ x ∈ ["bob"; "cat"] ∧ x ∉ ["cat"; "dan"])
    ∧ (∀ x, ¬ (x ∈ not_followed_back ∧ x ∈ not_following_back))
    ∧ sublist not_followed_back ["cat"; "dan"]
    ∧ sublist not_following_back ["bob"; "cat"].
Proof.
  apply (follow_diff_membership
           {[ "followers" := VNames ["bob"; "cat"];
              "following" := VNames ["cat"; "dan"] ]}
           ["bob"; "cat"] ["cat"; "dan"]).
  - reflexivity.
  - reflexivity.
Defined.

(** X22: every record that the parser tagged as verified is kept by the
    verified filter of the analysis: for a name line followed by the
    marker line, the record of that line is among the names that contain
    [(Verified)]. *)
Theorem tagged_records_are_verified (raw : string) (k i : nat) :
  name_positions (split nl raw) !! k = Some i →
  split nl raw !! (i + 1)%nat = Some "Verified" →
  ∃ record verified_names,
    clean_list raw !! k = Some record
    ∧ verified_in (VNames (clean_list raw)) = inl (VNames verified_names)
    ∧ record ∈ verified_names.
Proof.
  intros Hk Hmark.
  assert (Hrec : clean_list raw !! k
                 = Some (render (entity_at (split nl raw) i))).
  { rewrite clean_list_entities. unfold entities.
    by rewrite !list_lookup_fmap, Hk. }
  eexists _, _. split; [exact Hrec|]. split; [done|].
  apply list_elem_of_filter. split.
  - unfold render, entity_at. cbn [name verified].
    rewrite bool_decide_eq_true_2 by done.
    by apply contains_append.
  - by eapply list_elem_of_lookup_2.
Qed.

Lemma tagged_records_are_verified_witness :
  ∃ record verified_names,
    clean_list (join nl ["ann"; "Follow"; "bob"; "Verified"; "Follow"]) !! 1%nat
      = Some record
    ∧ verified_in
        (VNames (clean_list (join nl ["ann"; "Follow"; "bob"; "Verified"; "Follow"])))
      = inl (VNames verified_names)
    ∧ record ∈ verified_names.
Proof.
  apply (tagged_records_are_verified
           (join nl ["ann"; "Follow"; "bob"; "Verified"; "Follow"]) 1 2).
  - reflexivity.
  - reflexivity.
Defined.

(** X23: the analysis is idempotent on a profile: applied to its own
    result, it returns that result. *)
Theorem follow_diff_twice (p p' : gmap string value) :
  names_only p → follow_diff p = inl p' → follow_diff p' = inl p'.
Proof.
  intros Hnames Hp.
  destruct (p !! "followers") as [v1|] eqn:H1;
    [|unfold follow_diff in Hp; by rewrite H1 in Hp].
  destruct (p !! "following") as [v2|] eqn:H2;
    [|unfold follow_diff in Hp; by rewrite H1, H2 in Hp].
  destruct (Hnames "followers" v1) as [l1 ->]; [auto|done|].
  destruct (Hnames "following" v2) as [l2 ->]; [auto|done|].
  rewrite (follow_diff_names p l1 l2) in Hp by done. injection Hp as <-.
  rewrite (follow_diff_names _ l1 l2)
    by (unfold analysed; by simplify_map_eq).
  f_equal. unfold analysed. apply map_eq. intros key.
  rewrite !lookup_insert. repeat case_decide; done.
Qed.

Lemma follow_diff_twice_witness :
  follow_diff (analysed ["bob"; "cat"] ["cat"; "dan"]
                 {[ "followers" := VNames ["bob"; "cat"];
                    "following" := VNames ["cat"; "dan"] ]})
  = inl (analysed ["bob"; "cat"] ["cat"; "dan"]
           {[ "followers" := VNames ["bob"; "cat"];
              "following" := VNames ["cat"; "dan"] ]}).
Proof.
  apply (follow_diff_twice
           {[ "followers" := VNames ["bob"; "cat"];
              "following" := VNames ["cat"; "dan"] ]}).
  - intros key v [->| ->] Hv; vm_compute in Hv; injection Hv as <-; by eexists.
  - reflexivity.
Defined.

End DiffExtras.

(** ** Persistence, further *)

Module PersistExtras.
Import Effects Data Persist PersistFacts Fixtures.

(** X24: writing twice is writing once: when [output_data] has raised
    nothing, a second run on the file it left gives the same file and
    raises nothing either. *)
Theorem output_data_twice {J : Type} (encode : gmap string value → J)
    (self : igaccess) (f : file) :
  (output_data encode self f).1 = None →
  output_data encode self (output_data encode self f).2
  = output_data encode self f.
Proof.
  assert (Hup : ∀ m, update_all encode self (update_all encode self m)
                     = update_all encode self m).
  { intros m. apply map_eq. intros user. rewrite !update_all_lookup.
    by destruct (data self !! user). }
  destruct f as [| | |[m|]]; unfold output_data; simpl;
    try (intros _; by rewrite Hup); try done.
  destruct (decide (data self = ∅)) as [He|Hne]; simpl; [|done].
  intros _. by rewrite ?decide_True.
Qed.

Lemma output_data_twice_witness :
  output_data (λ p, p) collected
    (output_data (λ p, p) collected (Decoded (JObject stored))).2
  = output_data (λ p, p) collected (Decoded (JObject stored)).
Proof.
  apply (output_data_twice (λ p, p) collected (Decoded (JObject stored))).
  reflexivity.
Defined.



(** X26: [output_data] never drops a key: for a file that is absent,
    holds text that is not JSON, or holds an object, the keys of the
    object it writes are the keys the file had together with the keys of
    [self.data]. *)
Theorem output_data_keys {J : Type} (encode : gmap string value → J)
    (self : igaccess) (f : file) (m0 : gmap string J) :
  (f = Missing ∧ m0 = ∅) ∨ (f = Undecodable ∧ m0 = ∅)
  ∨ f = Decoded (JObject m0) →
  ∃ m', (output_data encode self f).2 = Decoded (JObject m')
    ∧ base.dom m' = base.dom m0 ∪ base.dom (data self).
Proof.
  intros Hf. exists (update_all encode self m0). split.
  - by destruct Hf as [[-> ->]|[[-> ->]| ->]].
  - apply set_eq. intros user.
    rewrite elem_of_union, !elem_of_dom, update_all_lookup.
    destruct (data self !! user) as [p|].
    + split; [intros _; right|]; eauto.
    + split; [by left|]. by intros [?|[? [=]]].
Qed.

Lemma output_data_keys_witness :
  ∃ m', (output_data (λ p, p) collected (Decoded (JObject stored))).2
        = Decoded (JObject m')
    ∧ base.dom m' = base.dom stored ∪ base.dom (data collected).
Proof.
  apply (output_data_keys (λ p, p) collected (Decoded (JObject stored)) stored).
  right. right. reflexivity.
Defined.

End PersistExtras.

(** ** Logging in *)

Module LoginFacts.
Import Effects Login.

Lemma looks_eq (s : session) (n : nat) :
  Nat.iter n look s = Session (shows s) (looked s + n).
Proof.
  induction n as [|n IH]; simpl.
  - destruct s. simpl. f_equal. lia.
  - rewrite IH. unfold look. simpl. f_equal. lia.
Qed.

(** The loop is decided by the first turn that shows the alert or the
    icon. *)
Lemma login_loop_decided (k : nat) : ∀ fuel s,
  (k < fuel)%nat →
  (∀ j, (j < k)%nat →
     error_alert (shows s (looked s + 2 * j)) = false
     ∧ nav_profile (shows s (looked s + 2 * j + 1)) = false) →
  login_loop fuel s
  = if error_alert (shows s (looked s + 2 * k))
    then Failed (IGAccessException incorrect_password)
           (Session (shows s) (looked s + 2 * k + 1))
    else if nav_profile (shows s (looked s + 2 * k + 1))
         then LoggedIn (Session (shows s) (looked s + 2 * k + 2))
         else login_loop (fuel - S k) (Session (shows s) (looked s + 2 * k + 2)).
Proof.
  induction k as [|k IH]; intros fuel s Hfuel Hquiet;
    (destruct fuel as [|fuel]; [lia|]).
  - cbn [login_loop look looked shows].
    replace (looked s + 2 * 0)%nat with (looked s) by lia.
    replace (looked s + 1)%nat with (S (looked s)) by lia.
    replace (looked s + 2)%nat with (S (S (looked s))) by lia.
    by replace (S fuel - 1)%nat with fuel by lia.
  - destruct (Hquiet 0%nat ltac:(lia)) as [Ha Hn].
    replace (looked s + 2 * 0)%nat with (looked s) in Ha by lia.
    replace (looked s + 2 * 0 + 1)%nat with (S (looked s)) in Hn by lia.
    cbn [login_loop]. rewrite Ha. unfold look. cbn [looked shows]. rewrite Hn.
    rewrite (IH fuel (Session (shows s) (S (S (looked s))))).
    + cbn [looked shows].
      replace (S (S (looked s)) + 2 * k)%nat with (looked s + 2 * S k)%nat
        by lia.
      by replace (S fuel - S (S k))%nat with (fuel - S k)%nat by lia.
    + lia.
    + intros j Hj. cbn [looked shows].
      destruct (Hquiet (S j) ltac:(lia)) as [H1 H2].
      replace (S (S (looked s)) + 2 * j)%nat with (looked s + 2 * S j)%nat
        by lia.
      by split.
Qed.

End LoginFacts.

Module LoginExtras.
Import Effects Login LoginFacts MoreFixtures.

(** X27: when both input fields are there and, after [k] turns that
    show neither the error alert nor the profile icon, a turn shows no
    alert and then the icon, [login] returns logged in, after
    [2 * k + 4] looks at the page. *)
Theorem login_succeeds (fuel k : nat) (s : session) :
  username_field (shows s (looked s)) = true →
  password_field (shows s (looked s + 1)) = true →
  (k < fuel)%nat →
  (∀ j, (j < k)%nat →
     error_alert (shows s (looked s + 2 + 2 * j)) = false
     ∧ nav_profile (shows s (looked s + 2 + 2 * j + 1)) = false) →
  error_alert (shows s (looked s + 2 + 2 * k)) = false →
  nav_profile (shows s (looked s + 2 + 2 * k + 1)) = true →
  login fuel false s = LoggedIn (Session (shows s) (looked s + 2 * k + 4)).
Proof.
  intros Hu Hp Hfuel Hquiet Ha Hn. unfold login.
  rewrite Hu. unfold look. cbn [looked shows].
  replace (S (looked s)) with (looked s + 1)%nat by lia. rewrite Hp.
  rewrite (login_loop_decided k); [|done|].
  - cbn [looked shows].
    replace (S (looked s + 1)) with (looked s + 2)%nat by lia.
    rewrite Ha, Hn. f_equal. f_equal. lia.
  - intros j Hj. cbn [looked shows].
    replace (S (looked s + 1)) with (looked s + 2)%nat by lia. auto.
Qed.

Lemma login_succeeds_witness :
  login 2 false slow_login = LoggedIn (Session (shows slow_login) (0 + 2 * 1 + 4)).
Proof.
  apply (login_succeeds 2 1 slow_login).
  - reflexivity.
  - reflexivity.
  - lia.
  - intros j Hj. destruct j as [|j]; [split; reflexivity|lia].
  - reflexivity.
  - reflexivity.
Defined.

(** X28: when, after [k] turns that show neither the alert nor the icon,
    a turn shows the error alert, [login] raises [IGAccessException] with
    the incorrect-password message; the profile icon is not looked for in
    that turn. *)
Theorem login_fails (fuel k : nat) (s : session) :
  username_field (shows s (looked s)) = true →
  password_field (shows s (looked s + 1)) = true →
  (k < fuel)%nat →
  (∀ j, (j < k)%nat →
     error_alert (shows s (looked s + 2 + 2 * j)) = false
     ∧ nav_profile (shows s (looked s + 2 + 2 * j + 1)) = false) →
  error_alert (shows s (looked s + 2 + 2 * k)) = true →
  login fuel false s
  = Failed (IGAccessException incorrect_password)
      (Session (shows s) (looked s + 2 * k + 3)).
Proof.
  intros Hu Hp Hfuel Hquiet Ha. unfold login.
  rewrite Hu. unfold look. cbn [looked shows].
  replace (S (looked s)) with (looked s + 1)%nat by lia. rewrite Hp.
  rewrite (login_loop_decided k); [|done|].
  - cbn [looked shows].
    replace (S (looked s + 1)) with (looked s + 2)%nat by lia.
    rewrite Ha. f_equal. f_equal. lia.
  - intros j Hj. cbn [looked shows].
    replace (S (looked s + 1)) with (looked s + 2)%nat by lia. auto.
Qed.

Lemma login_fails_witness :
  login 2 false wrong_password
  = Failed (IGAccessException incorrect_password)
      (Session (shows wrong_password) (0 + 2 * 1 + 3)).
Proof.
  apply (login_fails 2 1 wrong_password).
  - reflexivity.
  - reflexivity.
  - lia.
  - intros j Hj. destruct j as [|j]; [split; reflexivity|lia].
  - reflexivity.
Defined.

(** X29: [login] has no time limit: as long as the page shows neither
    the error alert nor the profile icon, it keeps waiting for the user,
    however many turns it is given. *)
Theorem login_waits (fuel : nat) (s : session) :
  username_field (shows s (looked s)) = true →
  password_field (shows s (looked s + 1)) = true →
  (∀ j, (j < fuel)%nat →
     error_alert (shows s (looked s + 2 + 2 * j)) = false
     ∧ nav_profile (shows s (looked s + 2 + 2 * j + 1)) = false) →
  login fuel false s = StillWaiting.
Proof.
  intros Hu Hp Hquiet. unfold login.
  rewrite Hu. unfold look. cbn [looked shows].
  replace (S (looked s)) with (looked s + 1)%nat by lia. rewrite Hp.
  destruct fuel as [|fuel]; [done|].
  rewrite (login_loop_decided fuel); [|lia|].
  - cbn [looked shows].
    replace (S (looked s + 1)) with (looked s + 2)%nat by lia.
    destruct (Hquiet fuel ltac:(lia)) as [-> ->].
    by replace (S fuel - S fuel)%nat with 0%nat by lia.
  - intros j Hj. cbn [looked shows].
    replace (S (looked s + 1)) with (looked s + 2)%nat by lia.
    apply Hquiet. lia.
Qed.

Lemma login_waits_witness :
  login 1 false slow_login = StillWaiting.
Proof.
  apply (login_waits 1 slow_login).
  - reflexivity.
  - reflexivity.
  - intros j Hj. destruct j as [|j]; [split; reflexivity|lia].
Defined.

End LoginExtras.
